(** * Physical AI textbook: the two serverless handlers

    A shallow embedding of

      - [api/health/handler.py]  (the Health Responder), and
      - [api/chat/handler.py]    (the Adapter Gateway),

    together with the part of CPython's [json] module the handlers and their
    contract rely on: [json.dumps] with its default options (the handlers call
    it) and [json.loads] (the contract speaks of the decoded body). *)

From Stdlib Require Import List NArith ZArith Bool Lia String Ascii.
From Stdlib Require Import DecimalString.
Import ListNotations.

Set Implicit Arguments.
Set Warnings "-register-all".

(* ================================================================= *)
(** * Python values *)

(** A Python [str] is a sequence of Unicode code points.  CPython admits every
    code point below [0x110000], surrogates included. *)
Definition pstr := list N.

Definition valid_codepoint (c : N) : Prop := (c < 0x110000)%N.
Definition valid_pstr (s : pstr) : Prop := Forall valid_codepoint s.

(** An ASCII literal of the source, as a Python [str]. *)
Definition py (s : string) : pstr := map N_of_ascii (list_ascii_of_string s).

Fixpoint pstr_eqb (a b : pstr) : bool :=
  match a, b with
  | [], [] => true
  | x :: a', y :: b' => N.eqb x y && pstr_eqb a' b'
  | _, _ => false
  end.

(** The values that travel through the handlers: [None], [bool], [int],
    [str], [list] and [dict] with [str] keys.  A dict keeps its insertion
    order, which [json.dumps] follows. *)
Inductive pyval : Type :=
| PNone
| PBool (b : bool)
| PInt (z : Z)
| PStr (s : pstr)
| PList (l : list pyval)
| PDict (d : list (pstr * pyval)).

(** Induction on a value with the hypothesis for every item of a list and
    every value of a dict. *)
Section PyvalInduction.

Variable P : pyval -> Prop.
Hypothesis HNone : P PNone.
Hypothesis HBool : forall b, P (PBool b).
Hypothesis HInt : forall z, P (PInt z).
Hypothesis HStr : forall s, P (PStr s).
Hypothesis HList : forall l, Forall P l -> P (PList l).
Hypothesis HDict : forall d, Forall (fun kv => P (snd kv)) d -> P (PDict d).


End PyvalInduction.

(** [d[k]], as an option: the entry stored under key [k]. *)
Fixpoint dict_get (k : pstr) (d : list (pstr * pyval)) : option pyval :=
  match d with
  | [] => None
  | (k', v) :: d' => if pstr_eqb k k' then Some v else dict_get k d'
  end.

(** [d[k] = v]: an existing key keeps its place, a new key goes last. *)
Fixpoint dict_set (d : list (pstr * pyval)) (k : pstr) (v : pyval)
  : list (pstr * pyval) :=
  match d with
  | [] => [(k, v)]
  | (k', v') :: d' =>
      if pstr_eqb k k' then (k', v) :: d' else (k', v') :: dict_set d' k v
  end.

(** [dict(pairs)]. *)
Definition dict_of_pairs (pairs : list (pstr * pyval)) : list (pstr * pyval) :=
  fold_left (fun d kv => dict_set d (fst kv) (snd kv)) pairs [].

(** Field access on a value that is expected to be a dict. *)
Definition py_getitem (v : pyval) (k : pstr) : option pyval :=
  match v with
  | PDict d => dict_get k d
  | _ => None
  end.

(* ================================================================= *)
(** * CPython's [json] module

    The handlers import [json] from the standard library.  What follows
    embeds [Lib/json/encoder.py] ([py_encode_basestring_ascii] and the
    encoder's loops over lists and dicts) and [Lib/json/decoder.py] with
    [Lib/json/scanner.py] ([py_scanstring], [JSONObject], [JSONArray],
    [_scan_once] and [JSONDecoder.decode]); the C accelerators compute the
    same results. *)

Module Json.

Local Open Scope N_scope.

(** ** Encoding: [json.dumps(obj)] with the default options
    ([ensure_ascii=True], a comma and a space between items, a colon and a
    space after a key). *)

Definition hexdigit (d : N) : N :=
  if d <? 10 then 48 + d else 87 + d.

(** The hexadecimal digits of [n], most significant first; [k] bounds their
    number. *)
Fixpoint hex_digits (k : nat) (n : N) (acc : pstr) : pstr :=
  match k with
  | O => acc
  | S k' =>
      if n =? 0 then acc
      else hex_digits k' (n / 16) (hexdigit (n mod 16) :: acc)
  end.

(** ['{0:04x}'.format(n)]: lower-case hexadecimal, padded with zeros to at
    least four digits. *)
Definition format_04x (n : N) : pstr :=
  let ds := hex_digits (N.to_nat (N.size n)) n [] in
  repeat 48 (4 - List.length ds) ++ ds.

(** [ESCAPE_DCT]: the short escapes, and [\u00XX] for the other control
    characters (the [setdefault] loop over [range(0x20)]). *)
Definition ESCAPE_DCT (c : N) : option pstr :=
  if c =? 92 then Some [92; 92]
  else if c =? 34 then Some [92; 34]
  else if c =? 8 then Some [92; 98]
  else if c =? 12 then Some [92; 102]
  else if c =? 10 then Some [92; 110]
  else if c =? 13 then Some [92; 114]
  else if c =? 9 then Some [92; 116]
  else if c <? 32 then Some ([92; 117] ++ format_04x c)
  else None.

(** [ESCAPE_ASCII]: the characters that are replaced are the backslash, the
    double quote and everything outside the printable ASCII range from the
    space to the tilde. *)
Definition ESCAPE_ASCII (c : N) : bool :=
  (c =? 92) || (c =? 34) || negb ((32 <=? c) && (c <=? 126)).

(** The [replace] callback of [py_encode_basestring_ascii]. *)
Definition replace (c : N) : pstr :=
  match ESCAPE_DCT c with
  | Some r => r
  | None =>
      if c <? 0x10000 then [92; 117] ++ format_04x c
      else
        let n := c - 0x10000 in
        let s1 := N.lor 0xd800 (N.land (N.shiftr n 10) 0x3ff) in
        let s2 := N.lor 0xdc00 (N.land n 0x3ff) in
        [92; 117] ++ format_04x s1 ++ [92; 117] ++ format_04x s2
  end.

(** [ESCAPE_ASCII.sub(replace, s)]: a matched character is replaced, the
    others are kept. *)
Definition escape_char (c : N) : pstr :=
  if ESCAPE_ASCII c then replace c else [c].

Fixpoint escape_sub (s : pstr) : pstr :=
  match s with
  | [] => []
  | c :: s' => escape_char c ++ escape_sub s'
  end.

Definition encode_basestring_ascii (s : pstr) : pstr :=
  34 :: escape_sub s ++ [34].

(** [int.__repr__]. *)
Definition int_repr (z : Z) : pstr :=
  py (NilEmpty.string_of_int (Z.to_int z)).

(** [json.dumps]: the items of a list or dict are written in order, the
    second and later ones after a comma and a space. *)
Fixpoint dumps (v : pyval) : pstr :=
  match v with
  | PNone => py "null"
  | PBool true => py "true"
  | PBool false => py "false"
  | PInt z => int_repr z
  | PStr s => encode_basestring_ascii s
  | PList l =>
      match l with
      | [] => py "[]"
      | x :: xs =>
          py "[" ++ dumps x ++
          flat_map (fun y => py ", " ++ dumps y) xs ++ py "]"
      end
  | PDict d =>
      match d with
      | [] => py "{}"
      | kx :: xs =>
          py "{" ++ encode_basestring_ascii (fst kx) ++ py ": " ++
          dumps (snd kx) ++
          flat_map
            (fun ky =>
               py ", " ++ encode_basestring_ascii (fst ky) ++ py ": " ++
               dumps (snd ky)) xs ++ py "}"
      end
  end.

(** ** Decoding: [json.loads(s)] with the default options ([strict=True]).

    Numbers ([int], [float], [NaN], [Infinity]) are outside the fragment
    modelled here: the decoder answers [NotModelled] where the scanner would
    try them.  The bodies the handlers build contain none. *)

Inductive decode_error : Type :=
| JSONDecodeError
| NotModelled
| OutOfFuel.

Inductive decoded (A : Type) : Type :=
| Decoded (a : A)
| DecodeFail (e : decode_error).
Arguments DecodeFail {A} e.

Definition dbind {A B} (m : decoded A) (k : A -> decoded B) : decoded B :=
  match m with
  | Decoded a => k a
  | DecodeFail e => DecodeFail e
  end.

Notation "' pat <-- m ;; k" :=
  (dbind m (fun x => match x with pat => k end))
  (at level 61, pat pattern, m at next level, right associativity).

Definition is_ws (c : N) : bool :=
  (c =? 32) || (c =? 9) || (c =? 10) || (c =? 13).

(** [WHITESPACE.match(s, end).end()]. *)
Fixpoint skip_ws (s : pstr) : pstr :=
  match s with
  | c :: s' => if is_ws c then skip_ws s' else s
  | [] => []
  end.

(** The value of one character of [[0-9A-Fa-f]]. *)
Definition hexval (c : N) : option N :=
  if (48 <=? c) && (c <=? 57) then Some (c - 48)
  else if (97 <=? c) && (c <=? 102) then Some (c - 87)
  else if (65 <=? c) && (c <=? 70) then Some (c - 55)
  else None.

(** [int(esc, 16)] on the four characters matched by [HEXDIGITS]. *)
Definition decode_hex4 (a b c d : N) : option N :=
  match hexval a, hexval b, hexval c, hexval d with
  | Some x, Some y, Some z, Some w => Some (((x * 16 + y) * 16 + z) * 16 + w)
  | _, _, _, _ => None
  end.

(** [BACKSLASH]. *)
Definition BACKSLASH (esc : N) : option N :=
  if esc =? 34 then Some 34
  else if esc =? 92 then Some 92
  else if esc =? 47 then Some 47
  else if esc =? 98 then Some 8
  else if esc =? 102 then Some 12
  else if esc =? 110 then Some 10
  else if esc =? 114 then Some 13
  else if esc =? 116 then Some 9
  else None.

Definition is_high_surrogate (u : N) : bool := (0xd800 <=? u) && (u <=? 0xdbff).
Definition is_low_surrogate (u : N) : bool := (0xdc00 <=? u) && (u <=? 0xdfff).

Definition join_surrogates (uni uni2 : N) : N :=
  0x10000 + N.lor (N.shiftl (uni - 0xd800) 10) (uni2 - 0xdc00).

Definition cons_char (c : N) (r : decoded (pstr * pstr)) : decoded (pstr * pstr) :=
  '(str, rest) <-- r ;; Decoded (c :: str, rest).

(** [scanstring(s, end, strict=True)], entered just after the opening quote:
    the decoded string and the text after the closing quote. *)
Fixpoint scanstring (s : pstr) : decoded (pstr * pstr) :=
  match s with
  | [] => DecodeFail JSONDecodeError
  | c :: s1 =>
      if c =? 34 then Decoded ([], s1)
      else if c =? 92 then
        match s1 with
        | [] => DecodeFail JSONDecodeError
        | esc :: s2 =>
            if esc =? 117 then
              match s2 with
              | h1 :: h2 :: h3 :: h4 :: s3 =>
                  match decode_hex4 h1 h2 h3 h4 with
                  | None => DecodeFail JSONDecodeError
                  | Some uni =>
                      if is_high_surrogate uni then
                        match s3 with
                        | b :: u :: s3' =>
                            if (b =? 92) && (u =? 117) then
                              match s3' with
                              | g1 :: g2 :: g3 :: g4 :: s4 =>
                                  match decode_hex4 g1 g2 g3 g4 with
                                  | None => DecodeFail JSONDecodeError
                                  | Some uni2 =>
                                      if is_low_surrogate uni2
                                      then cons_char (join_surrogates uni uni2)
                                                     (scanstring s4)
                                      else cons_char uni (scanstring s3)
                                  end
                              | _ => DecodeFail JSONDecodeError
                              end
                            else cons_char uni (scanstring s3)
                        | _ => cons_char uni (scanstring s3)
                        end
                      else cons_char uni (scanstring s3)
                  end
              | _ => DecodeFail JSONDecodeError
              end
            else
              match BACKSLASH esc with
              | None => DecodeFail JSONDecodeError
              | Some ch => cons_char ch (scanstring s2)
              end
        end
      else if c <? 32 then DecodeFail JSONDecodeError
      else cons_char c (scanstring s1)
  end.

Fixpoint starts_with (p s : pstr) : option pstr :=
  match p, s with
  | [], _ => Some s
  | x :: p', y :: s' => if x =? y then starts_with p' s' else None
  | _ :: _, [] => None
  end.

(** The first step of [JSONObject]: an empty object, or the first key. *)
Definition JSONObject
  (members : pstr -> decoded (list (pstr * pyval) * pstr)) (s : pstr)
  : decoded (list (pstr * pyval) * pstr) :=
  match skip_ws s with
  | c :: r =>
      if c =? 125 then Decoded ([], r)
      else if c =? 34 then members r
      else DecodeFail JSONDecodeError
  | [] => DecodeFail JSONDecodeError
  end.

(** The first step of [JSONArray]: an empty array, or the first element. *)
Definition JSONArray
  (elements : pstr -> decoded (list pyval * pstr)) (s : pstr)
  : decoded (list pyval * pstr) :=
  match skip_ws s with
  | c :: r => if c =? 93 then Decoded ([], r) else elements (c :: r)
  | [] => elements []
  end.

(** [scan_once] with the loops of [JSONObject] and [JSONArray].  The fuel
    bounds the number of nested calls. *)
Fixpoint scan_once (fuel : nat) (s : pstr) {struct fuel} : decoded (pyval * pstr) :=
  match fuel with
  | O => DecodeFail OutOfFuel
  | S f =>
      match s with
      | [] => DecodeFail JSONDecodeError
      | c :: r =>
          if c =? 34 then
            '(str, r') <-- scanstring r ;; Decoded (PStr str, r')
          else if c =? 123 then
            '(pairs, r') <-- JSONObject (object_members f) r ;;
            Decoded (PDict (dict_of_pairs pairs), r')
          else if c =? 91 then
            '(values, r') <-- JSONArray (array_elements f) r ;;
            Decoded (PList values, r')
          else
            match starts_with (py "null") s,
                  starts_with (py "true") s,
                  starts_with (py "false") s with
            | Some r', _, _ => Decoded (PNone, r')
            | _, Some r', _ => Decoded (PBool true, r')
            | _, _, Some r' => Decoded (PBool false, r')
            | None, None, None =>
                if (c =? 45) || ((48 <=? c) && (c <=? 57))
                   || (c =? 78) || (c =? 73)
                then DecodeFail NotModelled
                else DecodeFail JSONDecodeError
            end
      end
  end

with object_members (fuel : nat) (s : pstr) {struct fuel}
  : decoded (list (pstr * pyval) * pstr) :=
  match fuel with
  | O => DecodeFail OutOfFuel
  | S f =>
      '(key, s1) <-- scanstring s ;;
      match skip_ws s1 with
      | colon :: s2 =>
          if colon =? 58 then
            '(value, s3) <-- scan_once f (skip_ws s2) ;;
            match skip_ws s3 with
            | c :: s4 =>
                if c =? 125 then Decoded ([(key, value)], s4)
                else if c =? 44 then
                  match skip_ws s4 with
                  | q :: s5 =>
                      if q =? 34 then
                        '(more, s6) <-- object_members f s5 ;;
                        Decoded ((key, value) :: more, s6)
                      else DecodeFail JSONDecodeError
                  | [] => DecodeFail JSONDecodeError
                  end
                else DecodeFail JSONDecodeError
            | [] => DecodeFail JSONDecodeError
            end
          else DecodeFail JSONDecodeError
      | [] => DecodeFail JSONDecodeError
      end
  end

with array_elements (fuel : nat) (s : pstr) {struct fuel}
  : decoded (list pyval * pstr) :=
  match fuel with
  | O => DecodeFail OutOfFuel
  | S f =>
      '(value, s1) <-- scan_once f s ;;
      match skip_ws s1 with
      | c :: s2 =>
          if c =? 93 then Decoded ([value], s2)
          else if c =? 44 then
            '(more, s3) <-- array_elements f (skip_ws s2) ;;
            Decoded (value :: more, s3)
          else DecodeFail JSONDecodeError
      | [] => DecodeFail JSONDecodeError
      end
  end.

(** [json.loads]: one value between optional white space, nothing after.
    A nested value costs two units of fuel and at least one character, so
    twice the length is enough for every text. *)
Definition loads (s : pstr) : decoded pyval :=
  '(obj, r) <-- scan_once (S (2 * List.length s)) (skip_ws s) ;;
  match skip_ws r with
  | [] => Decoded obj
  | _ :: _ => DecodeFail JSONDecodeError
  end.

(** ** The domain of the round trip *)

(** No high surrogate directly followed by a low surrogate. *)
Fixpoint no_surrogate_pair (s : pstr) : bool :=
  match s with
  | c :: s' =>
      match s' with
      | d :: _ => negb (is_high_surrogate c && is_low_surrogate d)
      | [] => true
      end && no_surrogate_pair s'
  | [] => true
  end.

(** A [str] that [loads] gives back after [dumps]: code points of the type,
    and no surrogate pair spelled as two code points. *)
Definition text_ok (s : pstr) : Prop :=
  valid_pstr s /\ no_surrogate_pair s = true.

(** The values [loads] gives back after [dumps]: no number, strings within
    [text_ok], dict keys distinct. *)
Inductive json_ok : pyval -> Prop :=
| ok_none : json_ok PNone
| ok_bool b : json_ok (PBool b)
| ok_str s : text_ok s -> json_ok (PStr s)
| ok_list l : Forall json_ok l -> json_ok (PList l)
| ok_dict d :
    Forall (fun kv => text_ok (fst kv) /\ json_ok (snd kv)) d ->
    NoDup (map fst d) -> json_ok (PDict d).

(** The text [dumps] writes for the members of a dict after the first. *)
Definition more_members (xs : list (pstr * pyval)) : pstr :=
  flat_map
    (fun ky =>
       py ", " ++ encode_basestring_ascii (fst ky) ++ py ": " ++ dumps (snd ky))
    xs.


(** The characters a value of [json_ok] starts with. *)
Definition value_start (c : N) : bool :=
  (c =? 34) || (c =? 123) || (c =? 91) || (c =? 110) || (c =? 116) ||
  (c =? 102).


(** [P n] for the [k] numbers from [n] on. *)
Fixpoint forall_from (k : nat) (n : N) (P : N -> bool) : bool :=
  match k with
  | O => true
  | S k' => P n && forall_from k' (N.succ n) P
  end.

(** [format_04x n] is four characters that [decode_hex4] reads as [n]. *)
Definition hex4_roundtrip (n : N) : bool :=
  match format_04x n with
  | [a; b; c; d] =>
      match decode_hex4 a b c d with
      | Some m => m =? n
      | None => false
      end
  | _ => false
  end.

(** The text after a [\uXXXX] escape does not continue it to a pair: it is
    not a [\u] escape, or it is one of a code point that is no low
    surrogate. *)
Definition lone_after (t : pstr) : bool :=
  match t with
  | b :: u :: t' =>
      if (b =? 92) && (u =? 117) then
        match t' with
        | g1 :: g2 :: g3 :: g4 :: _ =>
            match decode_hex4 g1 g2 g3 g4 with
            | Some uni2 => negb (is_low_surrogate uni2)
            | None => false
            end
        | _ => false
        end
      else true
  | _ => true
  end.

(** The four shapes of an escaped character, read from the decoder's side. *)
Inductive char_enc (c : N) : pstr -> Prop :=
| enc_plain :
    32 <= c -> c <> 34 -> c <> 92 -> char_enc c [c]
| enc_short esc :
    esc <> 117 -> BACKSLASH esc = Some c -> char_enc c [92; esc]
| enc_u h1 h2 h3 h4 :
    decode_hex4 h1 h2 h3 h4 = Some c -> c < 0x10000 ->
    char_enc c [92; 117; h1; h2; h3; h4]
| enc_pair h1 h2 h3 h4 g1 g2 g3 g4 hi lo :
    decode_hex4 h1 h2 h3 h4 = Some hi -> is_high_surrogate hi = true ->
    decode_hex4 g1 g2 g3 g4 = Some lo -> is_low_surrogate lo = true ->
    join_surrogates hi lo = c -> 0x10000 <= c ->
    char_enc c [92; 117; h1; h2; h3; h4; 92; 117; g1; g2; g3; g4].

(** A run of the decoder on [s] that ends: it read at least one character,
    or it failed for another reason than want of fuel. *)
Definition consumes {A : Type} (s : pstr) (res : decoded (A * pstr)) : Prop :=
  match res with
  | Decoded (_, r) => (List.length r < List.length s)%nat
  | DecodeFail e => e <> OutOfFuel
  end.

End Json.

(* ================================================================= *)
(** * Exceptions and outcomes *)

(** The exception classes that matter to an [except Exception] clause: the
    root, the classes derived from [BaseException] only (among them
    [asyncio.CancelledError], which cancels an awaiting coroutine), some
    built-in subclasses of [Exception], and classes defined elsewhere by
    their base. *)
Inductive exc_class : Type :=
| BaseException
| SystemExit
| KeyboardInterrupt
| GeneratorExit
| CancelledError
| Exception
| ImportError
| ModuleNotFoundError
| NameError
| TypeError
| ValueError
| RuntimeError
| UserDefined (name : string) (base : exc_class).

(** [issubclass(c, Exception)]. *)
Fixpoint issubclass_Exception (c : exc_class) : bool :=
  match c with
  | BaseException | SystemExit | KeyboardInterrupt
  | GeneratorExit | CancelledError => false
  | Exception | ImportError | ModuleNotFoundError | NameError
  | TypeError | ValueError | RuntimeError => true
  | UserDefined _ base => issubclass_Exception base
  end.

(** A raised exception: its class and the text [str(e)] returns.  The
    exceptions of the model all have such a text; an exception whose
    [__str__] itself raises is outside it, and nothing below speaks of
    one. *)
Record PyExc : Type := mkExc { exc_type : exc_class; exc_str : pstr }.

Definition isinstance_Exception (e : PyExc) : bool :=
  issubclass_Exception (exc_type e).

(** What running a piece of code ends in. *)
Inductive outcome (A : Type) : Type :=
| Return (a : A)
| Raise (e : PyExc).
Arguments Raise {A} e.

(* ================================================================= *)
(** * The Invocation Response shape *)

Definition status_code (r : pyval) : option pyval := py_getitem r (py "statusCode").

Definition headers_of (r : pyval) : option pyval := py_getitem r (py "headers").

Definition header (r : pyval) (name : pstr) : option pyval :=
  match headers_of r with
  | Some h => py_getitem h name
  | None => None
  end.

Definition body_of (r : pyval) : option pyval := py_getitem r (py "body").

(** [json.loads(r["body"])]. *)
Definition body_json (r : pyval) : option (Json.decoded pyval) :=
  match body_of r with
  | Some (PStr b) => Some (Json.loads b)
  | _ => None
  end.





(* ================================================================= *)
(** * [api/health/handler.py] *)

Module Health.

Definition handle_request (event context : pyval) : outcome pyval :=
  Return
    (PDict
       [ (py "statusCode", PInt 200);
         (py "headers",
          PDict
            [ (py "Content-Type", PStr (py "application/json"));
              (py "Access-Control-Allow-Origin", PStr (py "*"));
              (py "Access-Control-Allow-Methods", PStr (py "GET, OPTIONS"));
              (py "Access-Control-Allow-Headers", PStr (py "Content-Type")) ]);
         (py "body",
          PStr
            (Json.dumps
               (PDict
                  [ (py "status", PStr (py "ok"));
                    (py "message",
                     PStr (py "Physical AI Chatbot Backend is active!"));
                    (py "version", PStr (py "1.0")) ]))) ]).

End Health.

(* ================================================================= *)
(** * [api/chat/handler.py] *)

Module Chat.

(** What the module does to its surroundings, in order. *)
Inductive effect : Type :=
| EvLoggingBasicConfig
| EvSysPathInsert
| EvImport (module_name name : pstr)
| EvMangum (lifespan : pstr)
| EvLoggerError (msg : pstr) (exc_info : bool)
| EvAwaitHandler (event context : pyval).

Section Gateway.

(** The state of the collaborators (the wrapped application, the adapter
    library, the platform) and the wrapped application object are opaque. *)
Variable World : Type.
Variable App : Type.

(** [await handler(event, context)]: a value or an exception, and the
    collaborators' next state. *)
Definition Handler : Type := pyval -> pyval -> World -> outcome pyval * World.

(** The class [Mangum], called with the application and [lifespan]. *)
Definition MangumClass : Type := App -> pstr -> World -> outcome Handler * World.

(** What the two imports find. *)
Record Env : Type := mkEnv {
  import_index_app : World -> outcome App * World;
  import_mangum_Mangum : World -> outcome MangumClass * World
}.

(** The module globals that [handle_request] reads; [None] is an unbound
    name. *)
Record Globals : Type := mkGlobals {
  HANDLER_AVAILABLE : option bool;
  handler : option Handler;
  error_message : option pstr
}.

(** The process: the module globals, the collaborators, and what has been
    done so far. *)
Record State : Type := mkState {
  globals : Globals;
  world : World;
  trace : list effect
}.

(** Code that reads and writes the state and may raise. *)
Definition M (A : Type) : Type := State -> outcome A * State.

Definition ret {A} (a : A) : M A := fun st => (Return a, st).

Definition bind {A B} (m : M A) (k : A -> M B) : M B :=
  fun st =>
    match m st with
    | (Return a, st') => k a st'
    | (Raise e, st') => (Raise e, st')
    end.

(** [try: body  except <class> as e: handler e]. *)
Definition try_except {A} (body : M A) (catches : PyExc -> bool)
  (on_exc : PyExc -> M A) : M A :=
  fun st =>
    match body st with
    | (Return a, st') => (Return a, st')
    | (Raise e, st') => if catches e then on_exc e st' else (Raise e, st')
    end.

Local Notation "x <- m ;; k" := (bind m (fun x => k))
  (at level 61, m at next level, right associativity).
Local Notation "m ;; k" := (bind m (fun _ => k))
  (at level 61, right associativity).

Definition emit (ev : effect) : M unit :=
  fun st => (Return tt, mkState (globals st) (world st) (trace st ++ [ev])).

(** A call into the collaborators. *)
Definition external {A} (f : World -> outcome A * World) : M A :=
  fun st =>
    let (r, w) := f (world st) in (r, mkState (globals st) w (trace st)).

Definition name_error (name : string) : PyExc :=
  mkExc NameError (py "name '" ++ py name ++ py "' is not defined").

Definition load_global {A} (name : string) (field : Globals -> option A) : M A :=
  fun st =>
    match field (globals st) with
    | Some v => (Return v, st)
    | None => (Raise (name_error name), st)
    end.

Definition store_global (update : Globals -> Globals) : M unit :=
  fun st => (Return tt, mkState (update (globals st)) (world st) (trace st)).

Definition store_HANDLER_AVAILABLE (b : bool) : M unit :=
  store_global (fun g => mkGlobals (Some b) (handler g) (error_message g)).

Definition store_handler (h : Handler) : M unit :=
  store_global (fun g => mkGlobals (HANDLER_AVAILABLE g) (Some h) (error_message g)).

Definition store_error_message (s : pstr) : M unit :=
  store_global (fun g => mkGlobals (HANDLER_AVAILABLE g) (handler g) (Some s)).

(** [logger.error(msg, exc_info=True)]. *)
Definition logger_error (msg : pstr) : M unit := emit (EvLoggerError msg true).

(** [from module_name import name]. *)
Definition import_from {A} (module_name name : string)
  (found : World -> outcome A * World) : M A :=
  emit (EvImport (py module_name) (py name)) ;; external found.

(** The module body, lines 13 to 29: run once when the module is loaded. *)
Definition module_body (env : Env) : M unit :=
  emit EvLoggingBasicConfig ;;
  emit EvSysPathInsert ;;
  try_except
    ( fastapi_app <- import_from "index" "app" (import_index_app env) ;;
      Mangum <- import_from "mangum" "Mangum" (import_mangum_Mangum env) ;;
      h <- (emit (EvMangum (py "off")) ;;
            external (Mangum fastapi_app (py "off"))) ;;
      store_handler h ;;
      store_HANDLER_AVAILABLE true )
    isinstance_Exception
    (fun e =>
       logger_error (py "Failed to load FastAPI app: " ++ exc_str e) ;;
       store_HANDLER_AVAILABLE false ;;
       store_error_message (exc_str e)).

(** A fresh process: nothing bound, nothing done yet. *)
Definition fresh (w : World) : State :=
  mkState (mkGlobals None None None) w [].

(** Loading the module in a fresh process. *)
Definition load_module (env : Env) (w : World) : outcome unit * State :=
  module_body env (fresh w).

(** [handle_request], lines 32 to 65: the degraded-state check, then the
    forwarding call inside [try ... except Exception]. *)
Definition handle_request (event context : pyval) : M pyval :=
  available <- load_global "HANDLER_AVAILABLE" HANDLER_AVAILABLE ;;
  if negb available then
    details <- load_global "error_message" error_message ;;
    ret
      (PDict
         [ (py "statusCode", PInt 500);
           (py "headers",
            PDict
              [ (py "Content-Type", PStr (py "application/json"));
                (py "Access-Control-Allow-Origin", PStr (py "*")) ]);
           (py "body",
            PStr
              (Json.dumps
                 (PDict
                    [ (py "error", PStr (py "Backend initialization failed"));
                      (py "details", PStr details) ]))) ])
  else
    try_except
      ( h <- load_global "handler" handler ;;
        response <- (emit (EvAwaitHandler event context) ;;
                     external (h event context)) ;;
        ret response )
      isinstance_Exception
      (fun e =>
         logger_error (py "Request handling error: " ++ exc_str e) ;;
         ret
           (PDict
              [ (py "statusCode", PInt 500);
                (py "headers",
                 PDict
                   [ (py "Content-Type", PStr (py "application/json"));
                     (py "Access-Control-Allow-Origin", PStr (py "*")) ]);
                (py "body",
                 PStr
                   (Json.dumps
                      (PDict
                         [ (py "error", PStr (py "Internal server error"));
                           (py "details", PStr (exc_str e)) ]))) ])).

(** The two states of the gateway. *)
Definition Unavailable (text : pstr) (g : Globals) : Prop :=
  HANDLER_AVAILABLE g = Some false /\ error_message g = Some text.

Definition Available (h : Handler) (g : Globals) : Prop :=
  HANDLER_AVAILABLE g = Some true /\ handler g = Some h.

End Gateway.

End Chat.
(* ================================================================= *)
(** * Reading a response *)

Definition CONTENT_TYPE : pstr := py "Content-Type".
Definition ALLOW_ORIGIN : pstr := py "Access-Control-Allow-Origin".
Definition ALLOW_METHODS : pstr := py "Access-Control-Allow-Methods".
Definition ALLOW_HEADERS : pstr := py "Access-Control-Allow-Headers".

(** The decoded body is an object with the given [error] and [details]. *)
Definition error_body (r : pyval) (err details : pstr) : Prop :=
  exists d,
    body_json r = Some (Json.Decoded (PDict d)) /\
    dict_get (py "error") d = Some (PStr err) /\
    dict_get (py "details") d = Some (PStr details).


(** The headers are the two of the gateway's own error responses, and no
    others. *)
Definition two_headers (r : pyval) : Prop :=
  headers_of r =
    Some (PDict [ (CONTENT_TYPE, PStr (py "application/json"));
                  (ALLOW_ORIGIN, PStr (py "*")) ]) /\
  header r ALLOW_METHODS = None /\
  header r ALLOW_HEADERS = None.

(** The value the gateway builds on its two error paths (lines 37 to 47 and
    55 to 65 of the source differ in the two strings only). *)
Definition local_error (err details : pstr) : pyval :=
  PDict
    [ (py "statusCode", PInt 500);
      (py "headers",
       PDict [ (CONTENT_TYPE, PStr (py "application/json"));
               (ALLOW_ORIGIN, PStr (py "*")) ]);
      (py "body",
       PStr
         (Json.dumps
            (PDict [ (py "error", PStr err); (py "details", PStr details) ]))) ].

(* ================================================================= *)
(** * The gateway's paths *)

Module Paths.

Import Chat.

Section Predicates.

Variable World : Type.

(** The degraded path: initialization failed. *)
Definition degraded (st : State World) : Prop :=
  exists text, Unavailable text (globals st).

(** The forwarding call of this invocation ends in [res]. *)
Definition forwarding (st : State World) (event context : pyval)
  (res : outcome pyval) : Prop :=
  exists h, Available h (globals st) /\ fst (h event context (world st)) = res.

(** The caught-exception path. *)
Definition caught (st : State World) (event context : pyval) : Prop :=
  exists e, forwarding st event context (Raise e) /\
            isinstance_Exception e = true.

Variable App : Type.

(** How the [try] block of the module body can fail: the first import, the
    second import, or the construction of the wrapper. *)
Inductive init_failure (env : Env World App) (w : World) (e : PyExc) : Prop :=
| fail_index w1 :
    import_index_app env w = (Raise e, w1) -> init_failure env w e
| fail_mangum app w1 w2 :
    import_index_app env w = (Return app, w1) ->
    import_mangum_Mangum env w1 = (Raise e, w2) -> init_failure env w e
| fail_construct app w1 Mangum w2 w3 :
    import_index_app env w = (Return app, w1) ->
    import_mangum_Mangum env w1 = (Return Mangum, w2) ->
    Mangum app (py "off") w2 = (Raise e, w3) -> init_failure env w e.

(** Both imports succeed and [Mangum(app, lifespan='off')] gives [h]. *)
Inductive init_success (env : Env World App) (w : World) (h : Handler World)
  : Prop :=
| init_ok app w1 Mangum w2 w3 :
    import_index_app env w = (Return app, w1) ->
    import_mangum_Mangum env w1 = (Return Mangum, w2) ->
    Mangum app (py "off") w2 = (Return h, w3) -> init_success env w h.

End Predicates.

End Paths.

(* ================================================================= *)
(** * Concrete collaborators *)

Module Scenario.

Import Chat.

(** A response as the adapter library builds one; the wrapped application
    set no CORS header. *)
Definition app_response : pyval :=
  PDict
    [ (py "statusCode", PInt 200);
      (py "headers", PDict [ (py "content-type", PStr (py "application/json")) ]);
      (py "body", PStr (py "{}"));
      (py "isBase64Encoded", PBool false) ].

Definition returning (v : pyval) : Handler unit := fun _ _ w => (Return v, w).

Definition serving : Handler unit := returning app_response.

Definition raising (e : PyExc) : Handler unit := fun _ _ w => (Raise e, w).

(** Fails on the first call, serves from then on; the state counts calls. *)
Definition boom : PyExc := mkExc RuntimeError (py "boom").

Definition flaky : Handler nat :=
  fun _ _ n =>
    match n with
    | O => (Raise boom, S n)
    | S _ => (Return app_response, S n)
    end.

(** Both imports succeed, and the wrapper is [h] when [lifespan] is ['off']. *)
Definition env_with {W : Type} (h : Handler W) : Env W unit :=
  mkEnv
    (fun w => (Return tt, w))
    (fun w =>
       (Return
          (fun _ lifespan w' =>
             if pstr_eqb lifespan (py "off") then (Return h, w')
             else (Raise (mkExc RuntimeError (py "lifespan")), w')),
        w)).

(** The first import raises [e]. *)
Definition env_failing (e : PyExc) : Env unit unit :=
  mkEnv
    (fun w => (Raise e, w))
    (fun w => (Return (fun _ _ w' => (Return serving, w')), w)).

Definition missing_index : PyExc :=
  mkExc ModuleNotFoundError (py "No module named 'index'").

(** A text of two code points: a high surrogate, then a low one. *)
Definition pair_text : pstr := [0xd83d; 0xde00]%N.

(** The state after loading the module. *)
Definition loaded {W : Type} (env : Env W unit) (w : W) : State W :=
  snd (load_module env w).

Definition unavailable_state : State unit := loaded (env_failing missing_index) tt.

Definition pair_state : State unit :=
  loaded (env_failing (mkExc ImportError pair_text)) tt.

Definition cancelled : PyExc := mkExc CancelledError [].

Definition system_exit : PyExc := mkExc SystemExit [].

Definition serving_state : State unit := loaded (env_with serving) tt.

Definition flaky_state : State nat := loaded (env_with flaky) O.

End Scenario.

(* ================================================================= *)
(** * Reading bodies and traces; successive calls *)

Module Observe.

Import Chat.

(** What a decoder makes of the escapes [json.dumps] writes for [s]: a high
    surrogate directly followed by a low one comes back as the one code
    point the two encode, every other code point as itself. *)
Fixpoint merge_surrogate_pairs (s : pstr) : pstr :=
  match s with
  | [] => []
  | c :: s1 =>
      match s1 with
      | d :: s2 =>
          if Json.is_high_surrogate c && Json.is_low_surrogate d
          then Json.join_surrogates c d :: merge_surrogate_pairs s2
          else c :: merge_surrogate_pairs s1
      | [] => [c]
      end
  end.

(** Every character is printable ASCII, from the space to the tilde. *)
Definition printable_ascii (s : pstr) : bool :=
  forallb (fun c => (32 <=? c)%N && (c <=? 126)%N) s.

(** The forwarding calls a trace records, oldest first. *)
Definition awaited (tr : list effect) : list (pyval * pyval) :=
  flat_map
    (fun ev => match ev with EvAwaitHandler e c => [(e, c)] | _ => [] end) tr.

(** The messages given to [logger.error]. *)
Definition logged (tr : list effect) : list pstr :=
  flat_map
    (fun ev => match ev with EvLoggerError msg _ => [msg] | _ => [] end) tr.

(** The imports attempted: module and name. *)
Definition imported (tr : list effect) : list (pstr * pstr) :=
  flat_map
    (fun ev => match ev with EvImport m n => [(m, n)] | _ => [] end) tr.

(** The [lifespan] arguments of the calls of [Mangum]. *)
Definition constructed (tr : list effect) : list pstr :=
  flat_map
    (fun ev => match ev with EvMangum l => [l] | _ => [] end) tr.

Section Calls.

Variable World : Type.

(** Successive calls of [handle_request] in one process, one per request;
    an exception that leaves one call does not end the process. *)
Fixpoint handle_requests (requests : list (pyval * pyval)) (st : State World)
  : list (outcome pyval) * State World :=
  match requests with
  | [] => ([], st)
  | (event, context) :: rest =>
      let (res, st1) := handle_request event context st in
      let (results, st2) := handle_requests rest st1 in
      (res :: results, st2)
  end.

(** The wrapper called directly, once per request and in order: what each
    call ends in, and the state the collaborators are left in. *)
Fixpoint forward_all (h : Handler World) (requests : list (pyval * pyval))
  (w : World) : list (outcome pyval) * World :=
  match requests with
  | [] => ([], w)
  | (event, context) :: rest =>
      let (res, w1) := h event context w in
      let (results, w2) := forward_all h rest w1 in
      (res :: results, w2)
  end.

(** The call builds an error response itself: in the degraded state from the
    captured text, or after catching an exception from its text. *)
Definition builds_error (st : State World) (event context : pyval)
  (err text : pstr) : Prop :=
  (Unavailable text (globals st) /\
   err = py "Backend initialization failed") \/
  (exists h e w',
     Available h (globals st) /\
     h event context (world st) = (Raise e, w') /\
     isinstance_Exception e = true /\
     exc_str e = text /\ err = py "Internal server error").

End Calls.

(** What [handle_request] makes of the outcome of its forwarding call. *)
Definition answer (res : outcome pyval) : outcome pyval :=
  match res with
  | Return r => Return r
  | Raise e =>
      if isinstance_Exception e
      then Return (local_error (py "Internal server error") (exc_str e))
      else Raise e
  end.

End Observe.
(* ================================================================= *)
(** * [json.loads] after [json.dumps] *)

Module JsonFacts.

Import Json.
Local Open Scope N_scope.

Lemma forall_from_spec (P : N -> bool) (k : nat) :
  forall n, forall_from k n P = true ->
  forall m, n <= m -> m < n + N.of_nat k -> P m = true.
Proof.
  induction k as [|k IH]; intros n H m Hle Hlt.
  - simpl in Hlt. lia.
  - simpl in H. apply andb_prop in H. destruct H as [Hn Hk].
    destruct (N.eq_dec m n) as [->|Hne]; [exact Hn|].
    apply (IH (N.succ n)); [exact Hk| lia | lia].
Qed.

Lemma hex4_roundtrip_all : forall_from (N.to_nat 65536) 0 hex4_roundtrip = true.
Proof. vm_compute. reflexivity. Qed.

Lemma format_04x_decode (n : N) :
  n < 0x10000 ->
  exists a b c d, format_04x n = [a; b; c; d] /\ decode_hex4 a b c d = Some n.
Proof.
  intros Hn.
  assert (H : hex4_roundtrip n = true).
  { apply forall_from_spec with (k := N.to_nat 65536) (n := 0);
      [exact hex4_roundtrip_all | lia | lia]. }
  unfold hex4_roundtrip in H.
  destruct (format_04x n) as [|a [|b [|c [|d [|? ?]]]]]; try discriminate.
  destruct (decode_hex4 a b c d) as [m|] eqn:E; try discriminate.
  apply N.eqb_eq in H. subst m. eauto 6.
Qed.

Lemma lor_low_bits (a b : N) (k : N) :
  a mod 2 ^ k = 0 -> b < 2 ^ k -> N.lor a b = a + b.
Proof.
  intros Ha Hb.
  assert (Hland : N.land a b = 0).
  { rewrite <- (N.mod_small b (2 ^ k)) by exact Hb.
    rewrite <- N.land_ones.
    rewrite (N.land_comm b), N.land_assoc.
    rewrite (N.land_ones a k), Ha. apply N.land_0_l. }
  rewrite <- N.lxor_lor by exact Hland.
  symmetry. apply N.add_nocarry_lxor. exact Hland.
Qed.

Lemma surrogate_pair_facts (c : N) :
  0x10000 <= c -> c < 0x110000 ->
  let n := c - 0x10000 in
  let s1 := N.lor 0xd800 (N.land (N.shiftr n 10) 0x3ff) in
  let s2 := N.lor 0xdc00 (N.land n 0x3ff) in
  s1 = 0xd800 + n / 1024 /\ s2 = 0xdc00 + n mod 1024 /\
  n / 1024 < 1024 /\ n mod 1024 < 1024 /\
  join_surrogates s1 s2 = c.
Proof.
  intros Hlo Hhi n s1 s2.
  assert (Hn : n < 0x100000) by (unfold n; lia).
  assert (Hdiv : n / 1024 < 1024).
  { apply N.Div0.div_lt_upper_bound. lia. }
  assert (Hmod : n mod 1024 < 1024) by (apply N.mod_lt; lia).
  assert (E1 : s1 = 0xd800 + n / 1024).
  { unfold s1. change 0x3ff with (N.ones 10). rewrite N.land_ones.
    rewrite N.shiftr_div_pow2. change (2 ^ 10) with 1024.
    rewrite (N.mod_small (n / 1024)) by exact Hdiv.
    apply lor_low_bits with (k := 10); [reflexivity | exact Hdiv]. }
  assert (E2 : s2 = 0xdc00 + n mod 1024).
  { unfold s2. change 0x3ff with (N.ones 10). rewrite N.land_ones.
    change (2 ^ 10) with 1024.
    apply lor_low_bits with (k := 10); [reflexivity | exact Hmod]. }
  repeat (split; [assumption|]).
  unfold join_surrogates. rewrite E1, E2.
  rewrite (N.add_comm 0xd800), N.add_sub.
  rewrite (N.add_comm 0xdc00), N.add_sub.
  rewrite N.shiftl_mul_pow2. change (2 ^ 10) with 1024.
  rewrite lor_low_bits with (k := 10).
  - rewrite (N.mul_comm (n / 1024)), <- N.div_mod by discriminate.
    unfold n. lia.
  - change (2 ^ 10) with 1024. apply N.Div0.mod_mul.
  - exact Hmod.
Qed.

(** How [escape_char] writes a code point. *)
Lemma escape_char_enc (c : N) :
  valid_codepoint c -> char_enc c (escape_char c).
Proof.
  unfold valid_codepoint. intros Hc.
  unfold escape_char, ESCAPE_ASCII, replace, ESCAPE_DCT.
  destruct (N.eqb_spec c 92) as [->|H92]; [now apply enc_short|].
  destruct (N.eqb_spec c 34) as [->|H34]; [now apply enc_short|].
  cbn [orb].
  destruct (N.leb_spec 32 c) as [H32|H32]; cbn [andb negb].
  - destruct (N.leb_spec c 126) as [H126|H126]; cbn [negb].
    + now apply enc_plain.
    + repeat match goal with
             | |- context [c =? ?k] =>
                 destruct (N.eqb_spec c k); [lia|]
             end.
      destruct (N.ltb_spec c 32); [lia|].
      destruct (N.ltb_spec c 0x10000) as [Hbmp|Hbmp].
      * destruct (format_04x_decode Hbmp) as (h1 & h2 & h3 & h4 & -> & Hd).
        now apply enc_u.
      * destruct (surrogate_pair_facts Hbmp Hc) as (E1 & E2 & Hdiv & Hmod & Hj).
        cbv zeta. cbv zeta in E1, E2, Hj.
        set (s1 := N.lor 0xd800 _) in *. set (s2 := N.lor 0xdc00 _) in *.
        clearbody s1 s2.
        generalize dependent ((c - 0x10000) / 1024).
        generalize dependent ((c - 0x10000) mod 1024).
        intros r E2 Hmod q E1 Hdiv.
        assert (H1 : s1 < 0x10000) by lia.
        assert (H2 : s2 < 0x10000) by lia.
        destruct (format_04x_decode H1) as (h1 & h2 & h3 & h4 & -> & Hd1).
        destruct (format_04x_decode H2) as (g1 & g2 & g3 & g4 & -> & Hd2).
        apply enc_pair with (hi := s1) (lo := s2); try assumption.
        -- unfold is_high_surrogate. apply andb_true_intro.
           split; apply N.leb_le; lia.
        -- unfold is_low_surrogate. apply andb_true_intro.
           split; apply N.leb_le; lia.
  - destruct (N.eqb_spec c 8) as [->|?]; [now apply enc_short|].
    destruct (N.eqb_spec c 12) as [->|?]; [now apply enc_short|].
    destruct (N.eqb_spec c 10) as [->|?]; [now apply enc_short|].
    destruct (N.eqb_spec c 13) as [->|?]; [now apply enc_short|].
    destruct (N.eqb_spec c 9) as [->|?]; [now apply enc_short|].
    destruct (N.ltb_spec c 32); [|lia].
    assert (Hbmp : c < 0x10000) by lia.
    destruct (format_04x_decode Hbmp) as (h1 & h2 & h3 & h4 & -> & Hd).
    now apply enc_u.
Qed.

Lemma scanstring_plain (c : N) (t : pstr) :
  32 <= c -> c <> 34 -> c <> 92 ->
  scanstring (c :: t) = cons_char c (scanstring t).
Proof.
  intros H32 H34 H92. cbn [scanstring].
  destruct (N.eqb_spec c 34); [contradiction|].
  destruct (N.eqb_spec c 92); [contradiction|].
  destruct (N.ltb_spec c 32); [lia|]. reflexivity.
Qed.

Lemma scanstring_short (esc ch : N) (t : pstr) :
  esc <> 117 -> BACKSLASH esc = Some ch ->
  scanstring (92 :: esc :: t) = cons_char ch (scanstring t).
Proof.
  intros Hu Hb. cbn [scanstring]. change (92 =? 34) with false.
  change (92 =? 92) with true. cbv iota.
  destruct (N.eqb_spec esc 117); [contradiction|].
  rewrite Hb. reflexivity.
Qed.

Lemma scanstring_u (h1 h2 h3 h4 : N) (t : pstr) :
  scanstring (92 :: 117 :: h1 :: h2 :: h3 :: h4 :: t) =
  match decode_hex4 h1 h2 h3 h4 with
  | None => DecodeFail JSONDecodeError
  | Some uni =>
      if is_high_surrogate uni then
        match t with
        | b :: u :: g1 :: g2 :: g3 :: g4 :: t' =>
            if (b =? 92) && (u =? 117) then
              match decode_hex4 g1 g2 g3 g4 with
              | None => DecodeFail JSONDecodeError
              | Some uni2 =>
                  if is_low_surrogate uni2
                  then cons_char (join_surrogates uni uni2) (scanstring t')
                  else cons_char uni (scanstring t)
              end
            else cons_char uni (scanstring t)
        | b :: u :: _ =>
            if (b =? 92) && (u =? 117) then DecodeFail JSONDecodeError
            else cons_char uni (scanstring t)
        | _ => cons_char uni (scanstring t)
        end
      else cons_char uni (scanstring t)
  end.
Proof.
  destruct t as [|b [|u [|g1 [|g2 [|g3 [|g4 t']]]]]]; reflexivity.
Qed.

Lemma scanstring_u_lone (h1 h2 h3 h4 uni : N) (t : pstr) :
  decode_hex4 h1 h2 h3 h4 = Some uni ->
  (is_high_surrogate uni = true -> lone_after t = true) ->
  scanstring (92 :: 117 :: h1 :: h2 :: h3 :: h4 :: t) =
  cons_char uni (scanstring t).
Proof.
  intros Hd Hlone. rewrite scanstring_u, Hd.
  destruct (is_high_surrogate uni); [|reflexivity].
  specialize (Hlone eq_refl). unfold lone_after in Hlone.
  destruct t as [|b [|u t']]; try reflexivity.
  destruct ((b =? 92) && (u =? 117)).
  - destruct t' as [|g1 [|g2 [|g3 [|g4 t']]]]; try discriminate.
    destruct (decode_hex4 g1 g2 g3 g4) as [uni2|]; [|discriminate].
    destruct (is_low_surrogate uni2); [discriminate|reflexivity].
  - destruct t' as [|g1 [|g2 [|g3 [|g4 t']]]]; reflexivity.
Qed.

Lemma scanstring_u_pair (h1 h2 h3 h4 g1 g2 g3 g4 hi lo : N) (t : pstr) :
  decode_hex4 h1 h2 h3 h4 = Some hi -> is_high_surrogate hi = true ->
  decode_hex4 g1 g2 g3 g4 = Some lo -> is_low_surrogate lo = true ->
  scanstring (92 :: 117 :: h1 :: h2 :: h3 :: h4 ::
              92 :: 117 :: g1 :: g2 :: g3 :: g4 :: t) =
  cons_char (join_surrogates hi lo) (scanstring t).
Proof.
  intros Hd1 Hh Hd2 Hl. rewrite scanstring_u, Hd1, Hh.
  change ((92 =? 92) && (117 =? 117)) with true. cbv iota.
  rewrite Hd2, Hl. reflexivity.
Qed.

Lemma high_not_low (u : N) :
  is_high_surrogate u = true -> is_low_surrogate u = false.
Proof.
  unfold is_high_surrogate, is_low_surrogate. intros H.
  apply andb_prop in H. destruct H as [_ H]. apply N.leb_le in H.
  destruct (N.leb_spec 0xdc00 u); [lia|reflexivity].
Qed.

(** One escaped character is read back as the character it was. *)
Lemma scanstring_enc (c : N) (enc t : pstr) :
  char_enc c enc ->
  (is_high_surrogate c = true -> lone_after t = true) ->
  scanstring (enc ++ t) = cons_char c (scanstring t).
Proof.
  intros Henc Hlone. destruct Henc; cbn [app].
  - now apply scanstring_plain.
  - now apply scanstring_short.
  - now apply scanstring_u_lone.
  - subst c. now apply scanstring_u_pair.
Qed.

(** An escaped character that is no low surrogate does not complete a pair. *)
Lemma lone_after_enc (d : N) (enc t : pstr) :
  char_enc d enc -> is_low_surrogate d = false -> lone_after (enc ++ t) = true.
Proof.
  intros Henc Hlow. destruct Henc; cbn [app]; unfold lone_after.
  - destruct t; [reflexivity|].
    destruct (N.eqb_spec d 92); [contradiction|]. reflexivity.
  - change (92 =? 92) with true.
    destruct (N.eqb_spec esc 117); [contradiction|]. reflexivity.
  - change ((92 =? 92) && (117 =? 117)) with true. cbv iota.
    rewrite H, Hlow. reflexivity.
  - change ((92 =? 92) && (117 =? 117)) with true. cbv iota.
    rewrite H, (high_not_low _ H0). reflexivity.
Qed.

Lemma lone_after_quote (t : pstr) : lone_after (34 :: t) = true.
Proof. destruct t; reflexivity. Qed.

(** [scanstring] reads back what [escape_sub] wrote. *)
Lemma scanstring_escape_sub (s : pstr) :
  valid_pstr s -> no_surrogate_pair s = true ->
  forall rest, scanstring (escape_sub s ++ 34 :: rest) = Decoded (s, rest).
Proof.
  induction s as [|c s IH]; intros Hv Hp rest.
  - reflexivity.
  - inversion Hv as [|? ? Hc Hs]; subst.
    cbn [no_surrogate_pair] in Hp. apply andb_prop in Hp.
    destruct Hp as [Hhead Hp].
    cbn [escape_sub]. rewrite <- app_assoc.
    rewrite scanstring_enc with (c := c).
    + rewrite IH by assumption. reflexivity.
    + now apply escape_char_enc.
    + intros Hhigh. destruct s as [|d s'].
      * apply lone_after_quote.
      * cbn [escape_sub]. rewrite <- app_assoc. apply lone_after_enc with (d := d).
        -- inversion Hs; subst. now apply escape_char_enc.
        -- rewrite Hhigh in Hhead. cbn [andb] in Hhead.
           now apply negb_true_iff in Hhead.
Qed.

(** A string value is read back. *)
Lemma scan_once_str (f : nat) (s rest : pstr) :
  text_ok s -> (0 < f)%nat ->
  scan_once f (encode_basestring_ascii s ++ rest) = Decoded (PStr s, rest).
Proof.
  intros [Hv Hp] Hf. destruct f as [|f]; [lia|].
  unfold encode_basestring_ascii.
  cbn [app scan_once]. change (34 =? 34) with true. cbv iota.
  rewrite <- app_assoc. cbn [app].
  rewrite scanstring_escape_sub by assumption. reflexivity.
Qed.

Lemma dumps_dict_cons (k : pstr) (x : pyval) (xs : list (pstr * pyval)) :
  dumps (PDict ((k, x) :: xs)) =
  123 :: encode_basestring_ascii k ++ 58 :: 32 :: dumps x ++
  more_members xs ++ [125].
Proof. reflexivity. Qed.

Lemma more_members_cons (k : pstr) (x : pyval) (xs : list (pstr * pyval)) :
  more_members ((k, x) :: xs) =
  44 :: 32 :: encode_basestring_ascii k ++ 58 :: 32 :: dumps x ++ more_members xs.
Proof.
  unfold more_members. cbn [flat_map fst snd].
  change (py ", ") with [44; 32]. change (py ": ") with [58; 32].
  cbn [app]. rewrite <- !app_assoc. reflexivity.
Qed.






(** ** Values *)


Lemma value_start_not_ws (c : N) :
  value_start c = true -> is_ws c = false /\ (c =? 93) = false.
Proof.
  unfold value_start, is_ws. intros H.
  repeat (apply orb_prop in H; destruct H as [H|H]);
    apply N.eqb_eq in H; subst c; split; reflexivity.
Qed.

Lemma dumps_start (v : pyval) :
  json_ok v -> exists c t, dumps v = c :: t /\ value_start c = true.
Proof.
  intros Hv. destruct Hv as [|b|s Hs|l Hl|d Hd Hn].
  - eexists; eexists; split; reflexivity.
  - destruct b; eexists; eexists; split; reflexivity.
  - eexists; eexists; split; reflexivity.
  - destruct l; eexists; eexists; split; reflexivity.
  - destruct d; eexists; eexists; split; reflexivity.
Qed.

Lemma skip_ws_dumps (v : pyval) (t : pstr) :
  json_ok v -> skip_ws (dumps v ++ t) = dumps v ++ t.
Proof.
  intros Hv. destruct (dumps_start Hv) as (c & t' & -> & Hc).
  destruct (value_start_not_ws _ Hc) as [Hws _].
  cbn [app skip_ws]. rewrite Hws. reflexivity.
Qed.



Ltac scan_step :=
  cbn [skip_ws is_ws N.eqb Pos.eqb orb andb app dbind].





Lemma N_of_ascii_bound (a : ascii) : N_of_ascii a < 256.
Proof. destruct a as [[] [] [] [] [] [] [] []]; reflexivity. Qed.

(** The literals of the source are within the codec's domain. *)
Lemma text_ok_py (s : string) : text_ok (py s).
Proof.
  unfold text_ok, py. induction s as [|a s [IHv IHp]]; cbn [list_ascii_of_string map].
  - split; [constructor | reflexivity].
  - pose proof (N_of_ascii_bound a) as Ha. split.
    + constructor; [unfold valid_codepoint; lia | exact IHv].
    + cbn [no_surrogate_pair]. rewrite IHp, andb_true_r.
      destruct (map N_of_ascii (list_ascii_of_string s)); [reflexivity|].
      unfold is_high_surrogate.
      destruct (N.leb_spec 0xd800 (N_of_ascii a)); [lia | reflexivity].
Qed.

(** ** The decoder ends *)

Lemma skip_ws_length (s : pstr) :
  (List.length (skip_ws s) <= List.length s)%nat.
Proof.
  induction s as [|c s IH]; cbn [skip_ws]; [apply Nat.le_refl|].
  destruct (is_ws c); cbn [List.length]; lia.
Qed.

Lemma starts_with_length (p s r : pstr) :
  starts_with p s = Some r ->
  List.length s = (List.length p + List.length r)%nat.
Proof.
  revert s. induction p as [|x p IH]; intros s H; cbn [starts_with] in H.
  - injection H as ->. reflexivity.
  - destruct s as [|y s]; [discriminate|].
    destruct (x =? y); [|discriminate].
    cbn [List.length]. rewrite (IH _ H). reflexivity.
Qed.

Lemma consumes_weaken {A : Type} (s s' : pstr) (res : decoded (A * pstr)) :
  consumes s' res -> (List.length s' <= List.length s)%nat -> consumes s res.
Proof. destruct res as [[a r]|e]; cbn [consumes]; [lia | trivial]. Qed.

Lemma consumes_dbind {A B : Type} (s : pstr) (m : decoded (A * pstr))
  (k : A * pstr -> decoded (B * pstr)) :
  consumes s m ->
  (forall a r, (List.length r < List.length s)%nat -> consumes s (k (a, r))) ->
  consumes s (dbind m k).
Proof.
  destruct m as [[a r]|e]; cbn [consumes dbind]; intros Hm Hk;
    [apply Hk; exact Hm | exact Hm].
Qed.

Lemma consumes_fail {A : Type} (s : pstr) :
  consumes (A := A) s (DecodeFail JSONDecodeError).
Proof. cbn. discriminate. Qed.

Lemma consumes_cons_char (c : N) (s t : pstr) :
  consumes t (scanstring t) ->
  (List.length t < List.length s)%nat ->
  consumes s (cons_char c (scanstring t)).
Proof.
  unfold cons_char. intros Ht Hlt. apply consumes_dbind.
  - apply consumes_weaken with (s' := t); [exact Ht | lia].
  - intros a r Hr. cbn [consumes]. exact Hr.
Qed.

(** [scanstring] reads at least the closing quote, and needs no fuel. *)
Lemma scanstring_consumes (s : pstr) : consumes s (scanstring s).
Proof.
  remember (List.length s) as n eqn:Hn.
  assert (Hle : (List.length s <= n)%nat) by lia. clear Hn.
  revert s Hle. induction n as [|n IH]; intros s Hle.
  - destruct s; [apply consumes_fail | cbn in Hle; lia].
  - assert (step : forall c t,
               (List.length t <= n)%nat ->
               (List.length t < List.length s)%nat ->
               consumes s (cons_char c (scanstring t))).
    { intros c t Ht Hlt. apply consumes_cons_char; [apply IH; exact Ht|exact Hlt]. }
    destruct s as [|c s1]; [apply consumes_fail|].
    cbn [List.length] in Hle.
    cbn [scanstring].
    destruct (c =? 34); [cbn; lia|].
    destruct (c =? 92).
    + destruct s1 as [|esc s2]; [apply consumes_fail|].
      cbn [List.length] in Hle.
      destruct (esc =? 117).
      * destruct s2 as [|h1 [|h2 [|h3 [|h4 s3]]]]; try apply consumes_fail.
        cbn [List.length] in Hle.
        destruct (decode_hex4 h1 h2 h3 h4) as [uni|]; [|apply consumes_fail].
        destruct (is_high_surrogate uni);
          [|apply step; cbn [List.length]; lia].
        destruct s3 as [|b [|u s3']];
          try (apply step; cbn [List.length] in *; lia).
        destruct ((b =? 92) && (u =? 117));
          [|apply step; cbn [List.length] in *; lia].
        destruct s3' as [|g1 [|g2 [|g3 [|g4 s4]]]]; try apply consumes_fail.
        destruct (decode_hex4 g1 g2 g3 g4) as [uni2|]; [|apply consumes_fail].
        destruct (is_low_surrogate uni2);
          apply step; cbn [List.length] in *; lia.
      * destruct (BACKSLASH esc); [|apply consumes_fail].
        apply step; cbn [List.length]; lia.
    + destruct (c <? 32); [apply consumes_fail|].
      apply step; cbn [List.length]; lia.
Qed.

(** With fuel above twice the length of the text, the decoder never stops
    for want of fuel, and every value it reads takes at least one
    character. *)
Lemma decoder_consumes (f : nat) :
  (forall s, (2 * List.length s < f)%nat -> consumes s (scan_once f s)) /\
  (forall s, (2 * List.length s + 1 < f)%nat ->
             consumes s (object_members f s)) /\
  (forall s, (2 * List.length s + 1 < f)%nat ->
             consumes s (array_elements f s)).
Proof.
  induction f as [|f (IHs & IHo & IHa)].
  - repeat split; intros s H; lia.
  - split; [|split]; intros s Hf.
    + (* scan_once *)
      destruct s as [|c r]; [apply consumes_fail|].
      cbn [List.length] in Hf. cbn [scan_once].
      destruct (c =? 34).
      { apply consumes_dbind.
        - apply consumes_weaken with (s' := r);
            [apply scanstring_consumes | cbn [List.length]; lia].
        - intros a r' Hr'. exact Hr'. }
      destruct (c =? 123).
      { apply consumes_dbind; [|intros a r' Hr'; exact Hr'].
        unfold JSONObject. pose proof (skip_ws_length r) as Hws.
        destruct (skip_ws r) as [|q r1]; [apply consumes_fail|].
        cbn [List.length] in Hws.
        destruct (q =? 125); [cbn [consumes List.length]; lia|].
        destruct (q =? 34); [|apply consumes_fail].
        apply consumes_weaken with (s' := r1);
          [apply IHo; lia | cbn [List.length]; lia]. }
      destruct (c =? 91).
      { apply consumes_dbind; [|intros a r' Hr'; exact Hr'].
        unfold JSONArray. pose proof (skip_ws_length r) as Hws.
        destruct (skip_ws r) as [|q r1].
        - apply consumes_weaken with (s' := []);
            [apply IHa; cbn [List.length]; lia | cbn [List.length]; lia].
        - cbn [List.length] in Hws.
          destruct (q =? 93); [cbn [consumes List.length]; lia|].
          apply consumes_weaken with (s' := q :: r1);
            [apply IHa; cbn [List.length]; lia | cbn [List.length]; lia]. }
      destruct (starts_with (py "null") (c :: r)) as [r'|] eqn:E1.
      { apply starts_with_length in E1. cbn [consumes].
        cbn [List.length py list_ascii_of_string map] in E1 |- *. lia. }
      destruct (starts_with (py "true") (c :: r)) as [r'|] eqn:E2.
      { apply starts_with_length in E2. cbn [consumes].
        cbn [List.length py list_ascii_of_string map] in E2 |- *. lia. }
      destruct (starts_with (py "false") (c :: r)) as [r'|] eqn:E3.
      { apply starts_with_length in E3. cbn [consumes].
        cbn [List.length py list_ascii_of_string map] in E3 |- *. lia. }
      destruct ((c =? 45) || ((48 <=? c) && (c <=? 57)) || (c =? 78) || (c =? 73));
        cbn; discriminate.
    + (* object_members *)
      cbn [object_members]. apply consumes_dbind;
        [apply scanstring_consumes|].
      intros key s1 H1.
      pose proof (skip_ws_length s1) as Hw1.
      destruct (skip_ws s1) as [|colon s2]; [apply consumes_fail|].
      cbn [List.length] in Hw1.
      destruct (colon =? 58); [|apply consumes_fail].
      pose proof (skip_ws_length s2) as Hw2.
      apply consumes_dbind.
      { apply consumes_weaken with (s' := skip_ws s2); [apply IHs; lia | lia]. }
      intros value s3 H3.
      pose proof (skip_ws_length s3) as Hw3.
      destruct (skip_ws s3) as [|c s4]; [apply consumes_fail|].
      cbn [List.length] in Hw3.
      destruct (c =? 125); [cbn [consumes]; lia|].
      destruct (c =? 44); [|apply consumes_fail].
      pose proof (skip_ws_length s4) as Hw4.
      destruct (skip_ws s4) as [|q s5]; [apply consumes_fail|].
      cbn [List.length] in Hw4.
      destruct (q =? 34); [|apply consumes_fail].
      apply consumes_dbind.
      { apply consumes_weaken with (s' := s5); [apply IHo; lia | lia]. }
      intros more s6 H6. cbn [consumes]. exact H6.
    + (* array_elements *)
      cbn [array_elements]. apply consumes_dbind.
      { apply IHs. lia. }
      intros value s1 H1.
      pose proof (skip_ws_length s1) as Hw1.
      destruct (skip_ws s1) as [|c s2]; [apply consumes_fail|].
      cbn [List.length] in Hw1.
      destruct (c =? 93); [cbn [consumes]; lia|].
      destruct (c =? 44); [|apply consumes_fail].
      pose proof (skip_ws_length s2) as Hw2.
      apply consumes_dbind.
      { apply consumes_weaken with (s' := skip_ws s2); [apply IHa; lia | lia]. }
      intros more s3 H3. cbn [consumes]. exact H3.
Qed.

(** [loads] answers for every text: the fuel it takes is enough. *)
Theorem loads_fuel_enough (s : pstr) : loads s <> DecodeFail OutOfFuel.
Proof.
  unfold loads.
  pose proof (skip_ws_length s) as Hws.
  assert (H : consumes (skip_ws s)
                (scan_once (S (2 * List.length s)) (skip_ws s))).
  { apply decoder_consumes. lia. }
  destruct (scan_once (S (2 * List.length s)) (skip_ws s)) as [[v r]|e];
    cbn [dbind consumes] in *.
  - destruct (skip_ws r); discriminate.
  - intros E. injection E as ->. now apply H.
Qed.

End JsonFacts.

(* ================================================================= *)
(** * More on the bodies the gateway writes *)

Module BodyFacts.

Import Json JsonFacts Observe.
Local Open Scope N_scope.

Lemma merge_cons2 (c d : N) (s : pstr) :
  merge_surrogate_pairs (c :: d :: s) =
  if is_high_surrogate c && is_low_surrogate d
  then join_surrogates c d :: merge_surrogate_pairs s
  else c :: merge_surrogate_pairs (d :: s).
Proof. reflexivity. Qed.

(** Without a surrogate pair there is nothing to merge. *)
Lemma merge_no_pair (s : pstr) :
  no_surrogate_pair s = true -> merge_surrogate_pairs s = s.
Proof.
  induction s as [|c s IH]; [reflexivity|]. intros H.
  cbn [no_surrogate_pair] in H. apply andb_prop in H. destruct H as [Hh Hp].
  destruct s as [|d s]; [reflexivity|].
  rewrite merge_cons2. apply negb_true_iff in Hh. rewrite Hh.
  rewrite IH by exact Hp. reflexivity.
Qed.

(** A code point of the Basic Multilingual Plane above the tilde is written
    as one [\uXXXX] escape. *)
Lemma escape_char_bmp (c : N) :
  126 < c -> c < 0x10000 ->
  exists h1 h2 h3 h4,
    escape_char c = [92; 117; h1; h2; h3; h4] /\
    decode_hex4 h1 h2 h3 h4 = Some c.
Proof.
  intros Hlo Hhi. unfold escape_char, ESCAPE_ASCII, replace, ESCAPE_DCT.
  repeat match goal with
         | |- context [c =? ?k] => destruct (N.eqb_spec c k); [lia|]
         end.
  destruct (N.leb_spec c 126); [lia|]. rewrite andb_false_r. cbn [orb negb].
  destruct (N.ltb_spec c 32); [lia|].
  destruct (N.ltb_spec c 0x10000); [|lia].
  destruct (format_04x_decode Hhi) as (h1 & h2 & h3 & h4 & -> & Hd).
  exists h1, h2, h3, h4. split; [reflexivity | exact Hd].
Qed.

Lemma surrogate_range (c : N) :
  is_high_surrogate c = true \/ is_low_surrogate c = true ->
  126 < c /\ c < 0x10000.
Proof.
  unfold is_high_surrogate, is_low_surrogate.
  intros [H|H]; apply andb_prop in H; destruct H as [H1 H2];
    apply N.leb_le in H1, H2; lia.
Qed.

(** [scanstring] after [escape_sub], for every text: surrogate pairs come
    back merged. *)
Lemma scanstring_escape_sub_merge (s : pstr) :
  valid_pstr s ->
  forall rest,
    scanstring (escape_sub s ++ 34 :: rest) =
    Decoded (merge_surrogate_pairs s, rest).
Proof.
  remember (List.length s) as n eqn:Hn.
  assert (Hle : (List.length s <= n)%nat) by lia. clear Hn.
  revert s Hle. induction n as [|n IH]; intros s Hle Hv rest.
  - destruct s; [reflexivity | cbn in Hle; lia].
  - destruct s as [|c s1]; [reflexivity|].
    inversion Hv as [|? ? Hc Hv1]; subst. cbn [List.length] in Hle.
    destruct s1 as [|d s2].
    + cbn [escape_sub merge_surrogate_pairs]. rewrite <- app_assoc.
      rewrite scanstring_enc with (c := c);
        [reflexivity | now apply escape_char_enc
        | intros _; apply lone_after_quote].
    + inversion Hv1 as [|? ? Hd Hv2]; subst. cbn [List.length] in Hle.
      rewrite merge_cons2.
      destruct (is_high_surrogate c && is_low_surrogate d) eqn:E.
      * apply andb_prop in E. destruct E as [Ehigh Elow].
        destruct (@surrogate_range c (or_introl Ehigh)) as [Hc1 Hc2].
        destruct (@surrogate_range d (or_intror Elow)) as [Hd1 Hd2].
        destruct (escape_char_bmp Hc1 Hc2) as (h1 & h2 & h3 & h4 & Ec & Dc).
        destruct (escape_char_bmp Hd1 Hd2) as (g1 & g2 & g3 & g4 & Ed & Dd).
        cbn [escape_sub]. rewrite Ec, Ed. cbn [app].
        rewrite (@scanstring_u_pair h1 h2 h3 h4 g1 g2 g3 g4 c d _ Dc Ehigh Dd Elow).
        rewrite IH by (assumption || lia). reflexivity.
      * cbn [escape_sub]. rewrite <- app_assoc.
        rewrite scanstring_enc with (c := c).
        -- change (escape_char d ++ escape_sub s2)
             with (escape_sub (d :: s2)).
           rewrite IH by (assumption || (cbn [List.length]; lia)).
           reflexivity.
        -- now apply escape_char_enc.
        -- intros Hh. rewrite Hh in E. cbn [andb] in E.
           rewrite <- app_assoc. apply lone_after_enc with (d := d);
             [now apply escape_char_enc | exact E].
Qed.

Lemma scan_once_str_merge (f : nat) (s rest : pstr) :
  valid_pstr s -> (0 < f)%nat ->
  scan_once f (encode_basestring_ascii s ++ rest) =
  Decoded (PStr (merge_surrogate_pairs s), rest).
Proof.
  intros Hv Hf. destruct f as [|f]; [lia|].
  unfold encode_basestring_ascii.
  cbn [app scan_once]. change (34 =? 34) with true. cbv iota.
  rewrite <- app_assoc. cbn [app].
  rewrite scanstring_escape_sub_merge by assumption. reflexivity.
Qed.

(** The body of an error response decodes for every text of the type. *)
Lemma loads_error_body (err : string) (text : pstr) :
  valid_pstr text ->
  loads (dumps (PDict [ (py "error", PStr (py err));
                        (py "details", PStr text) ])) =
  Decoded (PDict [ (py "error", PStr (py err));
                   (py "details", PStr (merge_surrogate_pairs text)) ]).
Proof.
  intros Hv. unfold loads. rewrite dumps_dict_cons, more_members_cons.
  cbn [more_members flat_map]. rewrite app_nil_r.
  set (len := List.length _).
  assert (Hlen : (2 <= len)%nat).
  { unfold len, encode_basestring_ascii. cbn [List.length app]. lia. }
  remember (2 * len)%nat as fuel eqn:Hfuel.
  assert (Hf : (3 < fuel)%nat) by lia. clear Hfuel Hlen len.
  cbn [skip_ws is_ws N.eqb Pos.eqb orb scan_once].
  change (123 =? 34) with false. change (123 =? 123) with true. cbv iota.
  unfold JSONObject, encode_basestring_ascii at 1. scan_step.
  rewrite <- !app_assoc. cbn [app].
  destruct fuel as [|fuel]; [lia|]. cbn [object_members].
  rewrite scanstring_escape_sub by apply text_ok_py. scan_step.
  rewrite skip_ws_dumps by (apply ok_str, text_ok_py). cbn [dumps].
  rewrite scan_once_str by (apply text_ok_py || lia). scan_step.
  unfold encode_basestring_ascii at 1. scan_step.
  rewrite <- !app_assoc. cbn [app].
  destruct fuel as [|fuel]; [lia|]. cbn [object_members].
  rewrite scanstring_escape_sub by apply text_ok_py. scan_step.
  change (skip_ws (encode_basestring_ascii text ++ [125]))
    with (encode_basestring_ascii text ++ [125]).
  rewrite scan_once_str_merge by (assumption || lia). scan_step.
  reflexivity.
Qed.

(** ** Printable ASCII *)

Lemma printable_app (s t : pstr) :
  printable_ascii (s ++ t) = printable_ascii s && printable_ascii t.
Proof. apply forallb_app. Qed.

Lemma hexval_printable (c v : N) :
  hexval c = Some v -> (32 <=? c) && (c <=? 126) = true.
Proof.
  unfold hexval. intros H.
  destruct (N.leb_spec 48 c); destruct (N.leb_spec c 57); cbn [andb] in H;
    try (apply andb_true_intro; split; apply N.leb_le; lia);
    destruct (N.leb_spec 97 c); destruct (N.leb_spec c 102); cbn [andb] in H;
    try (apply andb_true_intro; split; apply N.leb_le; lia);
    destruct (N.leb_spec 65 c); destruct (N.leb_spec c 70); cbn [andb] in H;
    try (apply andb_true_intro; split; apply N.leb_le; lia);
    discriminate H.
Qed.

Lemma format_04x_printable (n : N) :
  n < 0x10000 -> printable_ascii (format_04x n) = true.
Proof.
  intros Hn. destruct (format_04x_decode Hn) as (a & b & c & d & -> & Hd).
  unfold decode_hex4 in Hd.
  destruct (hexval a) eqn:Ea; [|discriminate].
  destruct (hexval b) eqn:Eb; [|discriminate].
  destruct (hexval c) eqn:Ec; [|discriminate].
  destruct (hexval d) eqn:Ed; [|discriminate].
  cbn [printable_ascii forallb].
  rewrite (hexval_printable _ Ea), (hexval_printable _ Eb),
    (hexval_printable _ Ec), (hexval_printable _ Ed). reflexivity.
Qed.

(** Whatever the code point, its escape is printable ASCII. *)
Lemma escape_char_printable (c : N) :
  valid_codepoint c -> printable_ascii (escape_char c) = true.
Proof.
  unfold valid_codepoint. intros Hc.
  unfold escape_char, ESCAPE_ASCII, replace, ESCAPE_DCT.
  destruct (N.eqb_spec c 92) as [->|H92]; [reflexivity|].
  destruct (N.eqb_spec c 34) as [->|H34]; [reflexivity|].
  cbn [orb].
  destruct (N.leb_spec 32 c) as [H32|H32]; cbn [andb negb].
  - destruct (N.leb_spec c 126) as [H126|H126]; cbn [negb].
    + cbn [printable_ascii forallb]. rewrite andb_true_r.
      apply andb_true_intro. split; apply N.leb_le; assumption.
    + repeat match goal with
             | |- context [c =? ?k] =>
                 destruct (N.eqb_spec c k); [lia|]
             end.
      destruct (N.ltb_spec c 32); [lia|].
      destruct (N.ltb_spec c 0x10000) as [Hbmp|Hbmp].
      * change ([92; 117] ++ ?t) with (92 :: 117 :: t).
        cbn [printable_ascii forallb].
        change (forallb _ ?t) with (printable_ascii t).
        rewrite format_04x_printable by assumption. reflexivity.
      * destruct (surrogate_pair_facts Hbmp Hc) as (E1 & E2 & Hdiv & Hmod & _).
        cbv zeta. cbv zeta in E1, E2.
        set (s1 := N.lor 0xd800 _) in *. set (s2 := N.lor 0xdc00 _) in *.
        clearbody s1 s2.
        generalize dependent ((c - 0x10000) / 1024).
        generalize dependent ((c - 0x10000) mod 1024).
        intros r E2 Hmod q E1 Hdiv.
        rewrite !printable_app.
        rewrite !format_04x_printable by lia. reflexivity.
  - destruct (N.eqb_spec c 8) as [->|?]; [reflexivity|].
    destruct (N.eqb_spec c 12) as [->|?]; [reflexivity|].
    destruct (N.eqb_spec c 10) as [->|?]; [reflexivity|].
    destruct (N.eqb_spec c 13) as [->|?]; [reflexivity|].
    destruct (N.eqb_spec c 9) as [->|?]; [reflexivity|].
    destruct (N.ltb_spec c 32); [|lia].
    rewrite printable_app, format_04x_printable by lia. reflexivity.
Qed.

Lemma escape_sub_printable (s : pstr) :
  valid_pstr s -> printable_ascii (escape_sub s) = true.
Proof.
  induction 1 as [|c s Hc _ IH]; [reflexivity|].
  cbn [escape_sub]. rewrite printable_app, IH, escape_char_printable by assumption.
  reflexivity.
Qed.

(** The body of an error response is printable ASCII for every text of the
    type, given an error label that is. *)
Lemma error_body_printable (err text : pstr) :
  valid_pstr err -> valid_pstr text ->
  printable_ascii
    (dumps (PDict [ (py "error", PStr err); (py "details", PStr text) ])) =
  true.
Proof.
  intros He Ht. rewrite dumps_dict_cons, more_members_cons.
  cbn [more_members flat_map dumps]. unfold encode_basestring_ascii.
  repeat (rewrite printable_app
          || (cbn [printable_ascii forallb app];
              change (forallb _ ?t) with (printable_ascii t))).
  rewrite !escape_sub_printable by (assumption || apply text_ok_py).
  reflexivity.
Qed.

(** ** Merging shortens *)

Lemma merge_length_le (s : pstr) :
  (List.length (merge_surrogate_pairs s) <= List.length s)%nat.
Proof.
  remember (List.length s) as n eqn:Hn.
  assert (Hle : (List.length s <= n)%nat) by lia. rewrite Hn. clear Hn.
  revert s Hle. induction n as [|n IH]; intros s Hle.
  - destruct s; [apply Nat.le_refl | cbn in Hle; lia].
  - destruct s as [|c [|d s2]]; [apply Nat.le_refl | apply Nat.le_refl |].
    cbn [List.length] in Hle. rewrite merge_cons2.
    destruct (is_high_surrogate c && is_low_surrogate d); cbn [List.length].
    + specialize (IH s2). lia.
    + specialize (IH (d :: s2)). cbn [List.length] in IH. lia.
Qed.

(** A text with a surrogate pair does not come back as it was. *)
Lemma merge_changes_pairs (s : pstr) :
  no_surrogate_pair s = false -> merge_surrogate_pairs s <> s.
Proof.
  intros Hp E.
  assert (Hlt : (List.length (merge_surrogate_pairs s) < List.length s)%nat).
  { clear E. induction s as [|c s IH]; [discriminate Hp|].
    destruct s as [|d s2]; [discriminate Hp|].
    rewrite merge_cons2. cbn [no_surrogate_pair] in Hp.
    destruct (is_high_surrogate c && is_low_surrogate d); cbn [List.length].
    - pose proof (merge_length_le s2). lia.
    - cbn [negb andb] in Hp. specialize (IH Hp).
      cbn [List.length] in IH. lia. }
  rewrite E in Hlt. lia.
Qed.

Lemma merge_fixed_iff (s : pstr) :
  merge_surrogate_pairs s = s <-> no_surrogate_pair s = true.
Proof.
  split.
  - intros E. destruct (no_surrogate_pair s) eqn:Hp; [reflexivity|].
    exfalso. exact (merge_changes_pairs Hp E).
  - apply merge_no_pair.
Qed.

(** ** Lengths *)

(** An escaped code point takes between one and twelve characters. *)
Lemma escape_char_length (c : N) :
  valid_codepoint c ->
  (1 <= List.length (escape_char c) <= 12)%nat.
Proof.
  intros Hc. destruct (escape_char_enc Hc); cbn [List.length]; lia.
Qed.

Lemma escape_sub_length (s : pstr) :
  valid_pstr s ->
  (List.length s <= List.length (escape_sub s) <= 12 * List.length s)%nat.
Proof.
  induction 1 as [|c s Hc _ IH]; [cbn; lia|].
  cbn [escape_sub]. rewrite length_app. cbn [List.length].
  pose proof (escape_char_length Hc). lia.
Qed.

Lemma error_body_length (err text : pstr) :
  List.length
    (dumps (PDict [ (py "error", PStr err); (py "details", PStr text) ])) =
  (28 + List.length (escape_sub err) + List.length (escape_sub text))%nat.
Proof.
  rewrite dumps_dict_cons, more_members_cons.
  cbn [more_members flat_map dumps]. unfold encode_basestring_ascii.
  cbn [List.length app].
  repeat (rewrite length_app; cbn [List.length app]).
  change (List.length (escape_sub (py "error"))) with 5%nat.
  change (List.length (escape_sub (py "details"))) with 7%nat.
  lia.
Qed.

End BodyFacts.
(* ================================================================= *)
(** * The Health Responder *)

Module HealthSpec.

(** C1: for every event and context the Health Responder returns status 200,
    a body that decodes to the fixed status object, and the four headers. *)
Theorem health_response (event context : pyval) :
  exists r,
    Health.handle_request event context = Return r /\
    status_code r = Some (PInt 200) /\
    body_json r =
      Some (Json.Decoded
              (PDict [ (py "status", PStr (py "ok"));
                       (py "message",
                        PStr (py "Physical AI Chatbot Backend is active!"));
                       (py "version", PStr (py "1.0")) ])) /\
    header r CONTENT_TYPE = Some (PStr (py "application/json")) /\
    header r ALLOW_ORIGIN = Some (PStr (py "*")) /\
    header r ALLOW_METHODS = Some (PStr (py "GET, OPTIONS")) /\
    header r ALLOW_HEADERS = Some (PStr (py "Content-Type")).
Proof.
  eexists. split; [reflexivity|].
  repeat split; vm_compute; reflexivity.
Qed.

End HealthSpec.

(* ================================================================= *)
(** * The Adapter Gateway *)

Module ChatSpec.

Import Chat Paths.

(** ** The value built on the error paths *)

Lemma body_json_response (sc hs : pyval) (b : pstr) :
  body_json (PDict [ (py "statusCode", sc); (py "headers", hs);
                     (py "body", PStr b) ]) = Some (Json.loads b).
Proof. reflexivity. Qed.


Lemma local_error_two_headers (err details : pstr) :
  two_headers (local_error err details).
Proof. repeat split. Qed.


(** ** What [handle_request] does on each path *)

Section Runs.

Variable World : Type.
Implicit Types (st : State World) (h : Handler World).

Lemma degraded_run st text event context :
  Unavailable text (globals st) ->
  handle_request event context st =
  (Return (local_error (py "Backend initialization failed") text), st).
Proof.
  destruct st as [[avail h msg] w tr]. intros [Ha Hm]. cbn in Ha, Hm. subst.
  reflexivity.
Qed.

Lemma forwarded_run st h event context r w' :
  Available h (globals st) ->
  h event context (world st) = (Return r, w') ->
  handle_request event context st =
  (Return r,
   mkState (globals st) w' (trace st ++ [EvAwaitHandler event context])).
Proof.
  destruct st as [[avail h0 msg] w tr]. intros [Ha Hh] Hr.
  cbn in Ha, Hh, Hr. subst.
  cbv [handle_request bind load_global try_except external emit ret
       globals world trace HANDLER_AVAILABLE handler negb].
  rewrite Hr. reflexivity.
Qed.

Lemma caught_run st h event context e w' :
  Available h (globals st) ->
  h event context (world st) = (Raise e, w') ->
  isinstance_Exception e = true ->
  handle_request event context st =
  (Return (local_error (py "Internal server error") (exc_str e)),
   mkState (globals st) w'
     (trace st ++ [EvAwaitHandler event context] ++
      [EvLoggerError (py "Request handling error: " ++ exc_str e) true])).
Proof.
  destruct st as [[avail h0 msg] w tr]. intros [Ha Hh] Hr He.
  cbn in Ha, Hh, Hr. subst.
  cbv [handle_request bind load_global try_except external emit ret
       logger_error globals world trace HANDLER_AVAILABLE handler negb].
  rewrite Hr, He. rewrite <- app_assoc. reflexivity.
Qed.

Lemma escaped_run st h event context e w' :
  Available h (globals st) ->
  h event context (world st) = (Raise e, w') ->
  isinstance_Exception e = false ->
  handle_request event context st =
  (Raise e,
   mkState (globals st) w' (trace st ++ [EvAwaitHandler event context])).
Proof.
  destruct st as [[avail h0 msg] w tr]. intros [Ha Hh] Hr He.
  cbn in Ha, Hh, Hr. subst.
  cbv [handle_request bind load_global try_except external emit ret
       globals world trace HANDLER_AVAILABLE handler negb].
  rewrite Hr, He. reflexivity.
Qed.

(** [handle_request] assigns to no global. *)
Lemma handle_request_globals st event context :
  globals (snd (handle_request event context st)) = globals st.
Proof.
  destruct st as [[avail h msg] w tr].
  cbv [handle_request bind load_global try_except external emit ret
       logger_error globals world trace HANDLER_AVAILABLE handler negb].
  destruct avail as [[|]|]; cbn [snd globals]; try reflexivity.
  - destruct h as [h|]; cbn [snd globals]; [|reflexivity].
    destruct (h event context w) as [[r|e] w']; cbn [snd globals];
      [reflexivity|].
    destruct (isinstance_Exception e); reflexivity.
  - destruct msg; reflexivity.
Qed.

End Runs.

End ChatSpec.
Module LoadSpec.

Import Chat Paths.

Section Load.

Variables World App : Type.
Implicit Types (env : Env World App) (w : World).

Ltac run_load :=
  cbv [load_module module_body fresh bind emit try_except import_from
       external ret logger_error store_handler store_HANDLER_AVAILABLE
       store_error_message store_global globals world trace
       HANDLER_AVAILABLE handler error_message].



(** A failure that [except Exception] catches leaves the gateway
    Unavailable, with the exception's text. *)
Lemma load_failure env w e :
  init_failure env w e -> isinstance_Exception e = true ->
  exists st,
    load_module env w = (Return tt, st) /\
    Unavailable (exc_str e) (globals st) /\
    handler (globals st) = None.
Proof.
  intros Hf He. destruct Hf as [w1 H1 | app w1 w2 H1 H2
                               | app w1 Mangum w2 w3 H1 H2 H3];
    run_load; rewrite H1; try rewrite H2; try rewrite H3; rewrite He;
    eexists; (split; [reflexivity|]); repeat split.
Qed.

(** A failure that it does not catch ends the module body. *)
Lemma load_crash env w e :
  init_failure env w e -> isinstance_Exception e = false ->
  exists st,
    load_module env w = (Raise e, st) /\ HANDLER_AVAILABLE (globals st) = None.
Proof.
  intros Hf He. destruct Hf as [w1 H1 | app w1 w2 H1 H2
                               | app w1 Mangum w2 w3 H1 H2 H3];
    run_load; rewrite H1; try rewrite H2; try rewrite H3; rewrite He;
    eexists; split; reflexivity.
Qed.

Lemma load_success env w h :
  init_success env w h ->
  exists st,
    load_module env w = (Return tt, st) /\ Available h (globals st) /\
    error_message (globals st) = None.
Proof.
  intros [app w1 Mangum w2 w3 H1 H2 H3].
  run_load. rewrite H1, H2, H3.
  eexists; (split; [reflexivity|]); repeat split.
Qed.


End Load.

End LoadSpec.
(* ================================================================= *)
(** * The contract of the gateway, claim by claim *)

Module Contract.

Import Chat Paths ChatSpec LoadSpec.

(** ** The degraded state *)




(** C7: in the Unavailable state the response depends on the captured text
    only: two calls, whatever their events, contexts, collaborators' states
    and histories, return equal responses and change nothing. *)
Theorem degraded_deterministic (World : Type) (st1 st2 : State World)
  (text : pstr) (event1 context1 event2 context2 : pyval) :
  Unavailable text (globals st1) ->
  Unavailable text (globals st2) ->
  exists r,
    handle_request event1 context1 st1 = (Return r, st1) /\
    handle_request event2 context2 st2 = (Return r, st2).
Proof.
  intros H1 H2. eexists. split.
  - apply degraded_run. exact H1.
  - apply degraded_run. exact H2.
Qed.

Lemma degraded_deterministic_witness :
  Unavailable (py "No module named 'index'")
    (globals Scenario.unavailable_state) /\
  Unavailable (py "No module named 'index'")
    (globals (mkState (globals Scenario.unavailable_state) tt [])) /\
  exists r,
    handle_request PNone PNone Scenario.unavailable_state =
      (Return r, Scenario.unavailable_state) /\
    handle_request (PDict [(py "path", PStr (py "/api/chat"))]) (PInt 7)
      (mkState (globals Scenario.unavailable_state) tt []) =
      (Return r, mkState (globals Scenario.unavailable_state) tt []).
Proof.
  assert (H1 : Unavailable (py "No module named 'index'")
                 (globals Scenario.unavailable_state))
    by (split; reflexivity).
  assert (H2 : Unavailable (py "No module named 'index'")
                 (globals (mkState (globals Scenario.unavailable_state) tt [])))
    by (split; reflexivity).
  split; [exact H1|]. split; [exact H2|].
  exact (degraded_deterministic _ _ PNone PNone
           (PDict [(py "path", PStr (py "/api/chat"))]) (PInt 7) H1 H2).
Defined.

(** C9: in the Unavailable state a call returns without running the
    translation wrapper: the collaborators' state and the trace are as
    before, so no [EvAwaitHandler] was added, even were a handler bound. *)
Theorem degraded_never_forwards (World : Type) (st : State World)
  (text : pstr) (event context : pyval) :
  Unavailable text (globals st) ->
  (exists r, fst (handle_request event context st) = Return r) /\
  world (snd (handle_request event context st)) = world st /\
  trace (snd (handle_request event context st)) = trace st.
Proof.
  intros Hu. rewrite (degraded_run st event context Hu).
  split; [eexists; reflexivity|]. split; reflexivity.
Qed.

Lemma degraded_never_forwards_witness :
  let st := mkState (mkGlobals (Some false) (Some Scenario.flaky)
                       (Some (py "boom"))) O [EvLoggingBasicConfig] in
  Unavailable (py "boom") (globals st) /\
  (exists r, fst (handle_request PNone PNone st) = Return r) /\
  world (snd (handle_request PNone PNone st)) = O /\
  trace (snd (handle_request PNone PNone st)) = [EvLoggingBasicConfig].
Proof.
  intros st.
  assert (Hu : Unavailable (py "boom") (globals st)) by (split; reflexivity).
  split; [exact Hu|].
  exact (degraded_never_forwards st PNone PNone Hu).
Defined.

(** ** The forwarding path *)

(** C4: when the gateway is Available and the forwarding call returns, the
    handler returns that very value. *)
Theorem forwarded_verbatim (World : Type) (st : State World)
  (h : Handler World) (event context r : pyval) (w' : World) :
  Available h (globals st) ->
  h event context (world st) = (Return r, w') ->
  handle_request event context st =
  (Return r,
   mkState (globals st) w' (trace st ++ [EvAwaitHandler event context])).
Proof.
  destruct st as [[avail h0 msg] w tr]. intros [Ha Hh] Hr.
  cbn [globals world HANDLER_AVAILABLE handler] in Ha, Hh, Hr. subst avail h0.
  cbv [handle_request bind load_global try_except external emit ret
       globals world trace HANDLER_AVAILABLE handler negb].
  rewrite Hr. reflexivity.
Qed.

Lemma forwarded_verbatim_witness :
  Available Scenario.serving (globals Scenario.serving_state) /\
  Scenario.serving PNone PNone (world Scenario.serving_state) =
    (Return Scenario.app_response, tt) /\
  handle_request PNone PNone Scenario.serving_state =
  (Return Scenario.app_response,
   mkState (globals Scenario.serving_state) tt
     (trace Scenario.serving_state ++ [EvAwaitHandler PNone PNone])).
Proof.
  assert (Ha : Available Scenario.serving (globals Scenario.serving_state))
    by (split; reflexivity).
  assert (Hr : Scenario.serving PNone PNone (world Scenario.serving_state) =
               (Return Scenario.app_response, tt)) by reflexivity.
  split; [exact Ha|]. split; [exact Hr|].
  exact (forwarded_verbatim Scenario.serving_state PNone PNone Ha Hr).
Defined.




(** ** Headers *)

(** C10: the two error responses the gateway builds itself, in the degraded
    state and after a caught exception, carry the headers [Content-Type] and
    [Access-Control-Allow-Origin] and no others, while the Health Responder
    also sends [Access-Control-Allow-Methods] and
    [Access-Control-Allow-Headers]. *)
Theorem local_errors_two_headers (World : Type) (st : State World)
  (event context : pyval) :
  degraded st \/ caught st event context ->
  (exists r st',
     handle_request event context st = (Return r, st') /\ two_headers r) /\
  (exists hr,
     Health.handle_request event context = Return hr /\
     header hr ALLOW_METHODS = Some (PStr (py "GET, OPTIONS")) /\
     header hr ALLOW_HEADERS = Some (PStr (py "Content-Type"))).
Proof.
  intros Hpath. split.
  - destruct Hpath as [[text Hu] | (e & (h & Ha & Hr) & He)].
    + eexists. eexists. split; [apply (degraded_run st event context Hu)|].
      apply local_error_two_headers.
    + destruct (h event context (world st)) as [res w'] eqn:Hh.
      cbn [fst] in Hr. subst res.
      eexists. eexists.
      split; [apply (caught_run st event context Ha Hh He)|].
      apply local_error_two_headers.
  - eexists. split; [reflexivity|]. split; reflexivity.
Qed.

Lemma local_errors_two_headers_witness :
  (degraded Scenario.unavailable_state /\
   exists r st',
     handle_request PNone PNone Scenario.unavailable_state = (Return r, st') /\
     two_headers r) /\
  (caught Scenario.flaky_state PNone PNone /\
   exists r st',
     handle_request PNone PNone Scenario.flaky_state = (Return r, st') /\
     two_headers r).
Proof.
  assert (Hd : degraded Scenario.unavailable_state).
  { exists (py "No module named 'index'"). split; reflexivity. }
  assert (Hc : caught Scenario.flaky_state PNone PNone).
  { exists Scenario.boom. split; [|reflexivity].
    exists Scenario.flaky. split; [split; reflexivity | reflexivity]. }
  split.
  - split; [exact Hd|].
    exact (proj1 (@local_errors_two_headers unit Scenario.unavailable_state
                    PNone PNone (or_introl Hd))).
  - split; [exact Hc|].
    exact (proj1 (@local_errors_two_headers nat Scenario.flaky_state
                    PNone PNone (or_intror Hc))).
Defined.

(** C5, as the code has it: a response returned by either handler carries
    [Access-Control-Allow-Origin: *] when the handler built it (Health,
    degraded state, caught exception); otherwise it is the forwarded
    response, returned as the wrapped application made it. *)
Theorem allow_origin_unless_forwarded (World : Type) (st : State World)
  (event context r : pyval) :
  Health.handle_request event context = Return r \/
  fst (handle_request event context st) = Return r ->
  header r ALLOW_ORIGIN = Some (PStr (py "*")) \/
  forwarding st event context (Return r).
Proof.
  intros [Hh | Hc].
  - left. injection Hh as <-. reflexivity.
  - destruct st as [[avail h msg] w tr].
    revert Hc.
    cbv [handle_request bind load_global try_except external emit ret
         logger_error globals world trace HANDLER_AVAILABLE handler negb].
    destruct avail as [[|]|]; cbn [fst]; try discriminate.
    + destruct h as [h|]; cbn [fst].
      * destruct (h event context w) as [[r0|e] w'] eqn:Hr; cbn [fst].
        -- intros H. injection H as <-. right. exists h.
           split; [split; reflexivity|]. cbn [world]. now rewrite Hr.
        -- destruct (isinstance_Exception e); cbn [fst]; [|discriminate].
           intros H. injection H as <-. left. reflexivity.
      * intros H. injection H as <-. left. reflexivity.
    + destruct msg as [text|]; cbn [fst]; [|discriminate].
      intros H. injection H as <-. left. reflexivity.
Qed.

Lemma allow_origin_unless_forwarded_witness :
  (fst (handle_request PNone PNone Scenario.unavailable_state) =
     Return (local_error (py "Backend initialization failed")
               (py "No module named 'index'"))) /\
  (header (local_error (py "Backend initialization failed")
             (py "No module named 'index'")) ALLOW_ORIGIN =
     Some (PStr (py "*")) \/
   forwarding Scenario.unavailable_state PNone PNone
     (Return (local_error (py "Backend initialization failed")
                (py "No module named 'index'")))).
Proof.
  assert (H : fst (handle_request PNone PNone Scenario.unavailable_state) =
              Return (local_error (py "Backend initialization failed")
                        (py "No module named 'index'"))) by reflexivity.
  split; [exact H|].
  exact (@allow_origin_unless_forwarded unit Scenario.unavailable_state
           PNone PNone _ (or_intror H)).
Defined.

(** C5 as stated fails on the forwarding path: the gateway is Available, the
    wrapped application answers without the header, and the handler returns
    that answer. *)
Lemma allow_origin_counterexample :
  Available Scenario.serving (globals Scenario.serving_state) /\
  fst (handle_request PNone PNone Scenario.serving_state) =
    Return Scenario.app_response /\
  header Scenario.app_response ALLOW_ORIGIN = None.
Proof. split; [split; reflexivity|]. split; reflexivity. Qed.

(** ** The response shape and the handler boundary *)




(** ** Initialization *)




End Contract.

(* ================================================================= *)
(** * Further behaviour of the gateway *)

Module Behaviour.

Import Chat Paths ChatSpec LoadSpec Observe.

(** ** Helpers on traces and on successive calls *)

Lemma awaited_app (t1 t2 : list effect) :
  awaited (t1 ++ t2) = awaited t1 ++ awaited t2.
Proof. apply flat_map_app. Qed.

Lemma logged_app (t1 t2 : list effect) :
  logged (t1 ++ t2) = logged t1 ++ logged t2.
Proof. apply flat_map_app. Qed.

Section Calls.

Variable World : Type.
Implicit Types (st : State World) (h : Handler World).

Lemma handle_requests_cons (event context : pyval)
  (rest : list (pyval * pyval)) st :
  handle_requests ((event, context) :: rest) st =
  (fst (handle_request event context st)
     :: fst (handle_requests rest (snd (handle_request event context st))),
   snd (handle_requests rest (snd (handle_request event context st)))).
Proof.
  cbn [handle_requests].
  destruct (handle_request event context st) as [res st1]. cbn [fst snd].
  destruct (handle_requests rest st1) as [results st2]. reflexivity.
Qed.

(** One call in the Available state: what it adds to the trace. *)
Lemma available_step_trace st h (event context : pyval) :
  Available h (globals st) ->
  trace (snd (handle_request event context st)) =
  trace st ++ EvAwaitHandler event context ::
    match fst (h event context (world st)) with
    | Raise e =>
        if isinstance_Exception e
        then [EvLoggerError (py "Request handling error: " ++ exc_str e) true]
        else []
    | Return _ => []
    end.
Proof.
  intros Ha. destruct (h event context (world st)) as [[r|e] w'] eqn:Hr;
    cbn [fst].
  - rewrite (forwarded_run st event context Ha Hr). reflexivity.
  - destruct (isinstance_Exception e) eqn:He.
    + rewrite (caught_run st event context Ha Hr He). reflexivity.
    + rewrite (escaped_run st event context Ha Hr He). reflexivity.
Qed.

End Calls.

(** ** Successive calls *)

(** X1: whatever the requests and whatever they end in, the module globals
    after any number of successive calls are the ones before: the flag, the
    wrapper and the captured text are set by the module body alone. *)
Theorem globals_survive_calls (World : Type)
  (requests : list (pyval * pyval)) (st : State World) :
  globals (snd (handle_requests requests st)) = globals st.
Proof.
  revert st. induction requests as [|[event context] rest IH]; intros st.
  - reflexivity.
  - rewrite handle_requests_cons. cbn [snd].
    rewrite IH. apply handle_request_globals.
Qed.

(** X2: the degraded state is permanent: in the Unavailable state every one
    of any number of successive calls returns the same 500 response, and the
    process is left exactly as it was. *)
Theorem degraded_forever (World : Type) (requests : list (pyval * pyval))
  (st : State World) (text : pstr) :
  Unavailable text (globals st) ->
  handle_requests requests st =
  (map (fun _ => Return (local_error (py "Backend initialization failed") text))
     requests,
   st).
Proof.
  intros Hu. induction requests as [|[event context] rest IH].
  - reflexivity.
  - rewrite handle_requests_cons, (degraded_run st event context Hu).
    cbn [fst snd]. rewrite IH. reflexivity.
Qed.

Lemma degraded_forever_witness :
  Unavailable (py "No module named 'index'")
    (globals Scenario.unavailable_state) /\
  handle_requests [(PNone, PNone); (PStr (py "again"), PInt 2)]
    Scenario.unavailable_state =
  ([ Return (local_error (py "Backend initialization failed")
               (py "No module named 'index'"));
     Return (local_error (py "Backend initialization failed")
               (py "No module named 'index'")) ],
   Scenario.unavailable_state).
Proof.
  assert (Hu : Unavailable (py "No module named 'index'")
                 (globals Scenario.unavailable_state))
    by (split; reflexivity).
  split; [exact Hu|].
  exact (@degraded_forever unit [(PNone, PNone); (PStr (py "again"), PInt 2)]
           Scenario.unavailable_state _ Hu).
Defined.

(** X3: in the Available state a sequence of calls forwards every request
    exactly once, in order and with the event and context it came with:
    the forwarding calls recorded are the requests, the collaborators end in
    the state that calling the wrapper once per request leaves them in, and
    every call answers from the outcome of its own forwarding call,
    whatever the earlier calls ended in. *)
Theorem forwarded_once_in_order (World : Type)
  (requests : list (pyval * pyval)) (st : State World) (h : Handler World) :
  Available h (globals st) ->
  awaited (trace (snd (handle_requests requests st))) =
    awaited (trace st) ++ requests /\
  world (snd (handle_requests requests st)) =
    snd (forward_all h requests (world st)) /\
  fst (handle_requests requests st) =
    map answer (fst (forward_all h requests (world st))).
Proof.
  revert st. induction requests as [|[event context] rest IH]; intros st Ha.
  - cbn [handle_requests forward_all snd fst map]. rewrite app_nil_r.
    repeat split.
  - assert (Ha' : Available h
                    (globals (snd (handle_request event context st))))
      by (rewrite handle_request_globals; exact Ha).
    destruct (IH _ Ha') as (IHt & IHw & IHr).
    assert (Hw : world (snd (handle_request event context st)) =
                 snd (h event context (world st))).
    { destruct (h event context (world st)) as [[r|e] w'] eqn:Hr; cbn [snd].
      - rewrite (forwarded_run st event context Ha Hr). reflexivity.
      - destruct (isinstance_Exception e) eqn:He.
        + rewrite (caught_run st event context Ha Hr He). reflexivity.
        + rewrite (escaped_run st event context Ha Hr He). reflexivity. }
    assert (Hres : fst (handle_request event context st) =
                   answer (fst (h event context (world st)))).
    { destruct (h event context (world st)) as [[r|e] w'] eqn:Hr;
        cbn [fst answer].
      - rewrite (forwarded_run st event context Ha Hr). reflexivity.
      - destruct (isinstance_Exception e) eqn:He.
        + rewrite (caught_run st event context Ha Hr He). reflexivity.
        + rewrite (escaped_run st event context Ha Hr He). reflexivity. }
    rewrite handle_requests_cons. cbn [snd fst forward_all].
    rewrite IHt, IHw, IHr, Hw, Hres.
    destruct (h event context (world st)) as [res w1]. cbn [fst snd].
    destruct (forward_all h rest w1) as [results w2]. cbn [fst snd map].
    split; [|split; reflexivity].
    rewrite (available_step_trace st event context Ha).
    rewrite awaited_app, <- app_assoc. f_equal.
    cbn [awaited flat_map app]. f_equal.
    destruct (fst (h event context (world st))) as [r|e]; [reflexivity|].
    destruct (isinstance_Exception e); reflexivity.
Qed.

Lemma forwarded_once_in_order_witness :
  Available Scenario.flaky (globals Scenario.flaky_state) /\
  awaited (trace (snd (handle_requests
                         [(PNone, PNone); (PStr (py "second"), PInt 2)]
                         Scenario.flaky_state))) =
    awaited (trace Scenario.flaky_state) ++
    [(PNone, PNone); (PStr (py "second"), PInt 2)] /\
  world (snd (handle_requests
                [(PNone, PNone); (PStr (py "second"), PInt 2)]
                Scenario.flaky_state)) = 2%nat /\
  fst (handle_requests
         [(PNone, PNone); (PStr (py "second"), PInt 2)]
         Scenario.flaky_state) =
    [ Return (local_error (py "Internal server error") (py "boom"));
      Return Scenario.app_response ].
Proof.
  assert (Ha : Available Scenario.flaky (globals Scenario.flaky_state))
    by (split; reflexivity).
  split; [exact Ha|].
  exact (@forwarded_once_in_order nat
           [(PNone, PNone); (PStr (py "second"), PInt 2)]
           Scenario.flaky_state Scenario.flaky Ha).
Defined.

(** X4: in the Available state a call writes to the log exactly when it
    catches an exception from the forwarding call: one message, the text
    [Request handling error: ] followed by the exception's text; nothing is
    logged when the call returns or when its exception is no instance of
    [Exception]. *)
Theorem logs_exactly_the_caught (World : Type) (st : State World)
  (h : Handler World) (event context : pyval) :
  Available h (globals st) ->
  logged (trace (snd (handle_request event context st))) =
  logged (trace st) ++
  match fst (h event context (world st)) with
  | Raise e =>
      if isinstance_Exception e
      then [py "Request handling error: " ++ exc_str e]
      else []
  | Return _ => []
  end.
Proof.
  intros Ha. rewrite (available_step_trace st event context Ha).
  rewrite logged_app. f_equal.
  destruct (fst (h event context (world st))) as [r|e]; [reflexivity|].
  destruct (isinstance_Exception e); reflexivity.
Qed.

Lemma logs_exactly_the_caught_witness :
  Available Scenario.flaky (globals Scenario.flaky_state) /\
  logged (trace (snd (handle_request PNone PNone Scenario.flaky_state))) =
  logged (trace Scenario.flaky_state) ++
  [py "Request handling error: " ++ py "boom"].
Proof.
  assert (Ha : Available Scenario.flaky (globals Scenario.flaky_state))
    by (split; reflexivity).
  split; [exact Ha|].
  exact (@logs_exactly_the_caught nat Scenario.flaky_state Scenario.flaky
           PNone PNone Ha).
Defined.

(** X5: in the Available state a call makes exactly one forwarding call,
    with the event and the context it was given, and leaves the
    collaborators in the state that call left them, whatever the call ends
    in. *)
Theorem one_forwarding_call (World : Type) (st : State World)
  (h : Handler World) (event context : pyval) :
  Available h (globals st) ->
  awaited (trace (snd (handle_request event context st))) =
    awaited (trace st) ++ [(event, context)] /\
  world (snd (handle_request event context st)) =
    snd (h event context (world st)).
Proof.
  intros Ha. split.
  - rewrite (available_step_trace st event context Ha).
    rewrite awaited_app. f_equal. cbn [awaited flat_map]. f_equal.
    destruct (fst (h event context (world st))) as [r|e]; [reflexivity|].
    destruct (isinstance_Exception e); reflexivity.
  - destruct (h event context (world st)) as [[r|e] w'] eqn:Hr; cbn [snd].
    + rewrite (forwarded_run st event context Ha Hr). reflexivity.
    + destruct (isinstance_Exception e) eqn:He.
      * rewrite (caught_run st event context Ha Hr He). reflexivity.
      * rewrite (escaped_run st event context Ha Hr He). reflexivity.
Qed.

Lemma one_forwarding_call_witness :
  Available Scenario.flaky (globals Scenario.flaky_state) /\
  awaited (trace (snd (handle_request (PStr (py "ev")) (PInt 1)
                         Scenario.flaky_state))) =
    awaited (trace Scenario.flaky_state) ++ [(PStr (py "ev"), PInt 1)] /\
  world (snd (handle_request (PStr (py "ev")) (PInt 1)
                Scenario.flaky_state)) = 1%nat.
Proof.
  assert (Ha : Available Scenario.flaky (globals Scenario.flaky_state))
    by (split; reflexivity).
  split; [exact Ha|].
  exact (@one_forwarding_call nat Scenario.flaky_state Scenario.flaky
           (PStr (py "ev")) (PInt 1) Ha).
Defined.

(** X9: an exception of the forwarding call that is no instance of
    [Exception] leaves [handle_request] as it is: no response is built,
    nothing is logged, the globals stay. *)
Theorem uncaught_exception_passes (World : Type) (st : State World)
  (h : Handler World) (event context : pyval) (e : PyExc) (w' : World) :
  Available h (globals st) ->
  h event context (world st) = (Raise e, w') ->
  isinstance_Exception e = false ->
  handle_request event context st =
  (Raise e,
   mkState (globals st) w' (trace st ++ [EvAwaitHandler event context])).
Proof.
  destruct st as [[avail h0 msg] w tr]. intros [Ha Hh] Hr He.
  cbn [globals world HANDLER_AVAILABLE handler] in Ha, Hh, Hr. subst avail h0.
  cbv [handle_request bind load_global try_except external emit ret
       globals world trace HANDLER_AVAILABLE handler negb].
  rewrite Hr, He. reflexivity.
Qed.

Lemma uncaught_exception_passes_witness :
  let h := Scenario.raising Scenario.cancelled in
  let st := Scenario.loaded (Scenario.env_with h) tt in
  Available h (globals st) /\
  h PNone PNone (world st) = (Raise Scenario.cancelled, tt) /\
  isinstance_Exception Scenario.cancelled = false /\
  handle_request PNone PNone st =
  (Raise Scenario.cancelled,
   mkState (globals st) tt (trace st ++ [EvAwaitHandler PNone PNone])).
Proof.
  intros h st.
  assert (Ha : Available h (globals st)) by (split; reflexivity).
  assert (Hr : h PNone PNone (world st) = (Raise Scenario.cancelled, tt))
    by reflexivity.
  assert (He : isinstance_Exception Scenario.cancelled = false)
    by reflexivity.
  split; [exact Ha|]. split; [exact Hr|]. split; [exact He|].
  exact (@uncaught_exception_passes unit st h PNone PNone
           Scenario.cancelled tt Ha Hr He).
Defined.

(** ** The bodies of the error responses *)

Lemma builds_error_run (World : Type) (st : State World)
  (event context : pyval) (err text : pstr) :
  builds_error st event context err text ->
  (exists st',
     handle_request event context st = (Return (local_error err text), st')) /\
  (exists label : string, err = py label).
Proof.
  intros [[Hu ->] | (h & e & w' & Ha & Hr & He & <- & ->)].
  - split; [|eexists; reflexivity].
    eexists. apply (degraded_run st event context Hu).
  - split; [|eexists; reflexivity].
    eexists. apply (caught_run st event context Ha Hr He).
Qed.

Lemma local_error_body_json (label : string) (text : pstr) :
  valid_pstr text ->
  body_json (local_error (py label) text) =
  Some (Json.Decoded
          (PDict [ (py "error", PStr (py label));
                   (py "details", PStr (merge_surrogate_pairs text)) ])).
Proof.
  intros Hv. unfold local_error. rewrite body_json_response.
  rewrite BodyFacts.loads_error_body by exact Hv. reflexivity.
Qed.

(** X10: the body of an error response the gateway builds is well-formed
    JSON for every text: it decodes to an object with exactly the keys
    [error] and [details], and [details] is the text with every high
    surrogate directly followed by a low one merged into the code point the
    two encode. *)
Theorem error_body_always_decodes (World : Type) (st : State World)
  (event context : pyval) (err text : pstr) :
  builds_error st event context err text ->
  valid_pstr text ->
  exists r st',
    handle_request event context st = (Return r, st') /\
    body_json r =
      Some (Json.Decoded
              (PDict [ (py "error", PStr err);
                       (py "details",
                        PStr (merge_surrogate_pairs text)) ])).
Proof.
  intros Hb Hv. destruct (builds_error_run Hb) as [[st' Hrun] [label ->]].
  exists (local_error (py label) text), st'. split; [exact Hrun|].
  apply local_error_body_json. exact Hv.
Qed.

Lemma error_body_always_decodes_witness :
  builds_error Scenario.pair_state PNone PNone
    (py "Backend initialization failed") Scenario.pair_text /\
  valid_pstr Scenario.pair_text /\
  exists r st',
    handle_request PNone PNone Scenario.pair_state = (Return r, st') /\
    body_json r =
      Some (Json.Decoded
              (PDict [ (py "error", PStr (py "Backend initialization failed"));
                       (py "details", PStr [0x1F600%N]) ])).
Proof.
  assert (Hb : builds_error Scenario.pair_state PNone PNone
                 (py "Backend initialization failed") Scenario.pair_text).
  { left. split; [split; reflexivity | reflexivity]. }
  assert (Hv : valid_pstr Scenario.pair_text).
  { repeat constructor. }
  split; [exact Hb|]. split; [exact Hv|].
  exact (@error_body_always_decodes unit Scenario.pair_state PNone PNone
           _ _ Hb Hv).
Defined.

(** X14: the decoded [details] of an error response the gateway builds is
    the text itself exactly when the text holds no high surrogate directly
    followed by a low one. *)
Theorem details_intact_iff (World : Type) (st : State World)
  (event context : pyval) (err text : pstr) :
  builds_error st event context err text ->
  valid_pstr text ->
  exists r st',
    handle_request event context st = (Return r, st') /\
    (error_body r err text <-> Json.no_surrogate_pair text = true).
Proof.
  intros Hb Hv. destruct (builds_error_run Hb) as [[st' Hrun] [label ->]].
  exists (local_error (py label) text), st'. split; [exact Hrun|].
  unfold error_body. rewrite (local_error_body_json label Hv). split.
  - intros (d & Hd & _ & Hdetails). injection Hd as <-.
    change (Some (PStr (merge_surrogate_pairs text)) = Some (PStr text))
      in Hdetails.
    injection Hdetails as E. apply BodyFacts.merge_fixed_iff. exact E.
  - intros Hp. eexists. split; [reflexivity|]. split; [reflexivity|].
    change (Some (PStr (merge_surrogate_pairs text)) = Some (PStr text)).
    rewrite BodyFacts.merge_no_pair by exact Hp. reflexivity.
Qed.

Lemma details_intact_iff_witness :
  builds_error Scenario.unavailable_state PNone PNone
    (py "Backend initialization failed") (py "No module named 'index'") /\
  valid_pstr (py "No module named 'index'") /\
  exists r st',
    handle_request PNone PNone Scenario.unavailable_state = (Return r, st') /\
    (error_body r (py "Backend initialization failed")
       (py "No module named 'index'") <->
     Json.no_surrogate_pair (py "No module named 'index'") = true).
Proof.
  assert (Hb : builds_error Scenario.unavailable_state PNone PNone
                 (py "Backend initialization failed")
                 (py "No module named 'index'")).
  { left. split; [split; reflexivity | reflexivity]. }
  assert (Hv : valid_pstr (py "No module named 'index'"))
    by apply JsonFacts.text_ok_py.
  split; [exact Hb|]. split; [exact Hv|].
  exact (@details_intact_iff unit Scenario.unavailable_state PNone PNone
           _ _ Hb Hv).
Defined.

(** X11: the body of an error response the gateway builds is printable
    ASCII whatever the text: no control character, no line break and no
    character above the tilde reaches the body. *)
Theorem error_body_printable_ascii (World : Type) (st : State World)
  (event context : pyval) (err text : pstr) :
  builds_error st event context err text ->
  valid_pstr text ->
  exists r st' b,
    handle_request event context st = (Return r, st') /\
    body_of r = Some (PStr b) /\
    printable_ascii b = true.
Proof.
  intros Hb Hv. destruct (builds_error_run Hb) as [[st' Hrun] [label ->]].
  eexists. exists st'. eexists. split; [exact Hrun|].
  split; [reflexivity|].
  apply BodyFacts.error_body_printable;
    [apply JsonFacts.text_ok_py | exact Hv].
Qed.

Lemma error_body_printable_ascii_witness :
  let e := mkExc ValueError [10; 233; 0x1F600; 34; 0]%N in
  let h := Scenario.raising e in
  let st := Scenario.loaded (Scenario.env_with h) tt in
  builds_error st PNone PNone (py "Internal server error") (exc_str e) /\
  valid_pstr (exc_str e) /\
  exists r st' b,
    handle_request PNone PNone st = (Return r, st') /\
    body_of r = Some (PStr b) /\
    printable_ascii b = true.
Proof.
  intros e h st.
  assert (Hb : builds_error st PNone PNone (py "Internal server error")
                 (exc_str e)).
  { right. exists h, e, tt. split; [split; reflexivity|].
    repeat split; reflexivity. }
  assert (Hv : valid_pstr (exc_str e)).
  { repeat constructor. }
  split; [exact Hb|]. split; [exact Hv|].
  exact (@error_body_printable_ascii unit st PNone PNone _ _ Hb Hv).
Defined.

(** X15: the body of an error response the gateway builds grows with the
    text and no faster than twelve characters for each of its code points:
    its length is that of the fixed part (28 characters and the error
    label) plus between one and twelve characters for every code point. *)
Theorem error_body_length_bounds (World : Type) (st : State World)
  (event context : pyval) (err text : pstr) :
  builds_error st event context err text ->
  valid_pstr text ->
  exists r st' b,
    handle_request event context st = (Return r, st') /\
    body_of r = Some (PStr b) /\
    (28 + List.length err + List.length text <= List.length b)%nat /\
    (List.length b <= 28 + List.length err + 12 * List.length text)%nat.
Proof.
  intros Hb Hv. pose proof (BodyFacts.escape_sub_length Hv) as Hlen.
  destruct Hb as [[Hu ->] | (h & e & w' & Ha & Hr & He & <- & ->)].
  - eexists. eexists. eexists.
    split; [apply (degraded_run st event context Hu)|].
    split; [reflexivity|].
    rewrite BodyFacts.error_body_length.
    change (List.length
              (Json.escape_sub (py "Backend initialization failed")))
      with (List.length (py "Backend initialization failed")).
    lia.
  - eexists. eexists. eexists.
    split; [apply (caught_run st event context Ha Hr He)|].
    split; [reflexivity|].
    rewrite BodyFacts.error_body_length.
    change (List.length (Json.escape_sub (py "Internal server error")))
      with (List.length (py "Internal server error")).
    lia.
Qed.

Lemma error_body_length_bounds_witness :
  builds_error Scenario.pair_state PNone PNone
    (py "Backend initialization failed") Scenario.pair_text /\
  valid_pstr Scenario.pair_text /\
  exists r st' b,
    handle_request PNone PNone Scenario.pair_state = (Return r, st') /\
    body_of r = Some (PStr b) /\
    (28 + 29 + 2 <= List.length b)%nat /\
    (List.length b <= 28 + 29 + 12 * 2)%nat.
Proof.
  assert (Hb : builds_error Scenario.pair_state PNone PNone
                 (py "Backend initialization failed") Scenario.pair_text).
  { left. split; [split; reflexivity | reflexivity]. }
  assert (Hv : valid_pstr Scenario.pair_text).
  { repeat constructor. }
  split; [exact Hb|]. split; [exact Hv|].
  exact (@error_body_length_bounds unit Scenario.pair_state PNone PNone
           _ _ Hb Hv).
Defined.
(** ** Loading the module *)

Section Loading.

Variables World App : Type.
Implicit Types (env : Env World App) (w : World).

Ltac run_body :=
  cbv [load_module module_body fresh bind emit try_except import_from
       external ret logger_error store_handler store_HANDLER_AVAILABLE
       store_error_message store_global globals world trace
       HANDLER_AVAILABLE handler error_message].

Lemma load_failure_log env w e :
  init_failure env w e ->
  logged (trace (snd (load_module env w))) =
  if isinstance_Exception e
  then [py "Failed to load FastAPI app: " ++ exc_str e] else [].
Proof.
  intros Hf. destruct Hf as [w1 H1 | app w1 w2 H1 H2
                            | app w1 Mangum w2 w3 H1 H2 H3];
    run_body; rewrite H1; try rewrite H2; try rewrite H3;
    destruct (isinstance_Exception e); reflexivity.
Qed.

Lemma load_success_log env w h :
  init_success env w h -> logged (trace (snd (load_module env w))) = [].
Proof.
  intros [app w1 Mangum w2 w3 H1 H2 H3].
  run_body. rewrite H1, H2, H3. reflexivity.
Qed.

End Loading.

(** X6: the module body imports [app] from [index] first and [Mangum] from
    [mangum] second, and calls [Mangum] once, with [lifespan='off'], only
    when both imports succeeded; a failing import ends the sequence, and
    the collaborators are left in the state of the last call made. *)
Theorem load_calls_in_order (World App : Type) (env : Env World App)
  (w : World) :
  let st := snd (load_module env w) in
  match import_index_app env w with
  | (Raise _, w1) =>
      imported (trace st) = [(py "index", py "app")] /\
      constructed (trace st) = [] /\ world st = w1
  | (Return app, w1) =>
      match import_mangum_Mangum env w1 with
      | (Raise _, w2) =>
          imported (trace st) =
            [(py "index", py "app"); (py "mangum", py "Mangum")] /\
          constructed (trace st) = [] /\ world st = w2
      | (Return Mangum, w2) =>
          imported (trace st) =
            [(py "index", py "app"); (py "mangum", py "Mangum")] /\
          constructed (trace st) = [py "off"] /\
          world st = snd (Mangum app (py "off") w2)
      end
  end.
Proof.
  cbv [load_module module_body fresh bind emit try_except import_from
       external ret logger_error store_handler store_HANDLER_AVAILABLE
       store_error_message store_global globals world trace
       HANDLER_AVAILABLE handler error_message].
  destruct (import_index_app env w) as [[app|e] w1].
  - destruct (import_mangum_Mangum env w1) as [[Mangum|e] w2].
    + destruct (Mangum app (py "off") w2) as [[h|e] w3].
      * repeat split.
      * destruct (isinstance_Exception e); repeat split.
    + destruct (isinstance_Exception e); repeat split.
  - destruct (isinstance_Exception e); repeat split.
Qed.

(** X7: loading the module logs one error exactly when it catches a
    failure, with the text [Failed to load FastAPI app: ] followed by the
    exception's text; a successful load, and a failure that is no instance
    of [Exception], log nothing. *)
Theorem load_logs_the_caught (World App : Type) (env : Env World App)
  (w : World) :
  (forall e, init_failure env w e ->
     logged (trace (snd (load_module env w))) =
     if isinstance_Exception e
     then [py "Failed to load FastAPI app: " ++ exc_str e] else []) /\
  (forall h, init_success env w h ->
     logged (trace (snd (load_module env w))) = []).
Proof.
  split.
  - intros e. apply load_failure_log.
  - intros h. apply load_success_log.
Qed.

Lemma load_logs_the_caught_witness :
  (init_failure (Scenario.env_failing Scenario.missing_index) tt
     Scenario.missing_index /\
   logged (trace (snd (load_module
                         (Scenario.env_failing Scenario.missing_index) tt))) =
   [py "Failed to load FastAPI app: " ++ py "No module named 'index'"]) /\
  (init_success (Scenario.env_with Scenario.serving) tt Scenario.serving /\
   logged (trace (snd (load_module
                         (Scenario.env_with Scenario.serving) tt))) = []).
Proof.
  assert (Hf : init_failure (Scenario.env_failing Scenario.missing_index) tt
                 Scenario.missing_index).
  { apply fail_index with (w1 := tt). reflexivity. }
  assert (Hs : init_success (Scenario.env_with Scenario.serving) tt
                 Scenario.serving).
  { eapply init_ok with (app := tt) (w1 := tt) (w2 := tt) (w3 := tt);
      reflexivity. }
  split.
  - split; [exact Hf|].
    exact (proj1 (load_logs_the_caught
                    (Scenario.env_failing Scenario.missing_index) tt)
             Scenario.missing_index Hf).
  - split; [exact Hs|].
    exact (proj2 (load_logs_the_caught
                    (Scenario.env_with Scenario.serving) tt)
             Scenario.serving Hs).
Defined.

(** X8: when an import or the construction of the wrapper raises an
    exception that is no instance of [Exception], the module body ends with
    that very exception: no global is bound and nothing is logged. *)
Theorem uncaught_init_failure_passes (World App : Type)
  (env : Env World App) (w : World) (e : PyExc) :
  init_failure env w e ->
  isinstance_Exception e = false ->
  fst (load_module env w) = Raise e /\
  globals (snd (load_module env w)) = mkGlobals None None None /\
  logged (trace (snd (load_module env w))) = [].
Proof.
  intros Hf He. rewrite (load_failure_log Hf), He.
  destruct Hf as [w1 H1 | app w1 w2 H1 H2 | app w1 Mangum w2 w3 H1 H2 H3];
    cbv [load_module module_body fresh bind emit try_except import_from
         external ret globals world trace];
    rewrite H1; try rewrite H2; try rewrite H3; rewrite He;
    repeat split.
Qed.

Lemma uncaught_init_failure_passes_witness :
  init_failure (Scenario.env_failing Scenario.system_exit) tt
    Scenario.system_exit /\
  isinstance_Exception Scenario.system_exit = false /\
  fst (load_module (Scenario.env_failing Scenario.system_exit) tt) =
    Raise Scenario.system_exit /\
  globals (snd (load_module (Scenario.env_failing Scenario.system_exit) tt)) =
    mkGlobals None None None /\
  logged (trace (snd (load_module
                        (Scenario.env_failing Scenario.system_exit) tt))) = [].
Proof.
  assert (Hf : init_failure (Scenario.env_failing Scenario.system_exit) tt
                 Scenario.system_exit).
  { apply fail_index with (w1 := tt). reflexivity. }
  assert (He : isinstance_Exception Scenario.system_exit = false)
    by reflexivity.
  split; [exact Hf|]. split; [exact He|].
  exact (uncaught_init_failure_passes Hf He).
Defined.

(** X13: once the module is loaded its globals have one of two shapes: the
    flag true, the wrapper bound and no error text; or the flag false, no
    wrapper and the error text bound.  So [handle_request] finds every name
    it reads. *)
Theorem loaded_globals_shape (World App : Type) (env : Env World App)
  (w : World) (st : State World) :
  load_module env w = (Return tt, st) ->
  (exists h, globals st = mkGlobals (Some true) (Some h) None) \/
  (exists text, globals st = mkGlobals (Some false) None (Some text)).
Proof.
  cbv [load_module module_body fresh bind emit try_except import_from
       external ret logger_error store_handler store_HANDLER_AVAILABLE
       store_error_message store_global globals world trace
       HANDLER_AVAILABLE handler error_message].
  destruct (import_index_app env w) as [[app|e] w1].
  - destruct (import_mangum_Mangum env w1) as [[Mangum|e] w2].
    + destruct (Mangum app (py "off") w2) as [[h|e] w3].
      * intros H. injection H as <-. left. exists h. reflexivity.
      * destruct (isinstance_Exception e); intros H; [|discriminate H].
        injection H as <-. right. exists (exc_str e). reflexivity.
    + destruct (isinstance_Exception e); intros H; [|discriminate H].
      injection H as <-. right. exists (exc_str e). reflexivity.
  - destruct (isinstance_Exception e); intros H; [|discriminate H].
    injection H as <-. right. exists (exc_str e). reflexivity.
Qed.

Lemma loaded_globals_shape_witness :
  load_module (Scenario.env_with Scenario.flaky) O =
    (Return tt, Scenario.flaky_state) /\
  ((exists h, globals Scenario.flaky_state =
              mkGlobals (Some true) (Some h) None) \/
   (exists text, globals Scenario.flaky_state =
                 mkGlobals (Some false) None (Some text))).
Proof.
  assert (Hl : load_module (Scenario.env_with Scenario.flaky) O =
               (Return tt, Scenario.flaky_state)) by reflexivity.
  split; [exact Hl|].
  exact (@loaded_globals_shape nat unit (Scenario.env_with Scenario.flaky) O
           Scenario.flaky_state Hl).
Defined.

(** X12: loading and then calling.  After a caught failure with text [t]
    the first call (any call) answers 500 with [t] as details; after a
    successful load a call answers what the wrapper so constructed answers:
    its value, a 500 built from its exception, or its exception when that
    is no instance of [Exception]. *)
Theorem load_then_call (World App : Type) (env : Env World App) (w : World)
  (event context : pyval) :
  let st := snd (load_module env w) in
  (forall e, init_failure env w e -> isinstance_Exception e = true ->
     fst (handle_request event context st) =
     Return (local_error (py "Backend initialization failed") (exc_str e))) /\
  (forall h, init_success env w h ->
     fst (handle_request event context st) =
     match fst (h event context (world st)) with
     | Return r => Return r
     | Raise e =>
         if isinstance_Exception e
         then Return (local_error (py "Internal server error") (exc_str e))
         else Raise e
     end).
Proof.
  intros st. split.
  - intros e Hf He. destruct (load_failure Hf He) as (st1 & Hl & Hu & _).
    unfold st. rewrite Hl. cbn [snd].
    rewrite (degraded_run st1 event context Hu). reflexivity.
  - intros h Hs. destruct (load_success Hs) as (st1 & Hl & Ha & _).
    unfold st. rewrite Hl. cbn [snd].
    destruct (h event context (world st1)) as [[r|e] w'] eqn:Hr; cbn [fst].
    + rewrite (forwarded_run st1 event context Ha Hr). reflexivity.
    + destruct (isinstance_Exception e) eqn:He.
      * rewrite (caught_run st1 event context Ha Hr He). reflexivity.
      * rewrite (escaped_run st1 event context Ha Hr He). reflexivity.
Qed.

Lemma load_then_call_witness :
  (init_failure (Scenario.env_failing Scenario.missing_index) tt
     Scenario.missing_index /\
   isinstance_Exception Scenario.missing_index = true /\
   fst (handle_request PNone PNone
          (snd (load_module (Scenario.env_failing Scenario.missing_index) tt)))
   = Return (local_error (py "Backend initialization failed")
               (py "No module named 'index'"))) /\
  (init_success (Scenario.env_with Scenario.flaky) O Scenario.flaky /\
   fst (handle_request PNone PNone
          (snd (load_module (Scenario.env_with Scenario.flaky) O)))
   = Return (local_error (py "Internal server error") (py "boom"))).
Proof.
  assert (Hf : init_failure (Scenario.env_failing Scenario.missing_index) tt
                 Scenario.missing_index).
  { apply fail_index with (w1 := tt). reflexivity. }
  assert (He : isinstance_Exception Scenario.missing_index = true)
    by reflexivity.
  assert (Hs : init_success (Scenario.env_with Scenario.flaky) O
                 Scenario.flaky).
  { eapply init_ok with (app := tt) (w1 := O) (w2 := O) (w3 := O);
      reflexivity. }
  split.
  - split; [exact Hf|]. split; [exact He|].
    exact (proj1 (@load_then_call unit unit
                    (Scenario.env_failing Scenario.missing_index) tt
                    PNone PNone) Scenario.missing_index Hf He).
  - split; [exact Hs|].
    exact (proj2 (@load_then_call nat unit
                    (Scenario.env_with Scenario.flaky) O PNone PNone)
             Scenario.flaky Hs).
Defined.

End Behaviour.
